(** * EEG Paradox Viewer: overlay engine, coordinate mapping and filter pipeline

    A shallow embedding of the parts of [eeg_paradox_viewer_v2_live.py] that
    carry the overlay model ([AnalysisOverlay] and its three subclasses), the
    editing handlers of [ImageZoomViewer] (press / move / release), the
    device-to-image coordinate conversion, the overlay persistence loop of
    [restore_session] / [closeEvent], and the raster pipelines of
    [update_zoom] and [export_current_view].

    Python objects that are mutated through more than one name (the [data]
    dictionaries of overlays) live in an explicit heap; Python exceptions are
    results of an error-and-state monad; Python floats are IEEE binary64
    ([PrimFloat]). *)

From Stdlib Require Import ZArith NArith Floats DecimalString Lia.
From stdpp Require Import base gmap strings list.

Set Warnings "-register-all".

Local Open Scope Z_scope.

(* ===================================================================== *)
(** ** Python values, exceptions, heap *)
(* ===================================================================== *)

(** Exceptions the modelled code can raise. *)
Inductive exn :=
| TypeError | AttributeError | IndexError | KeyError
| ZeroDivisionError | ValueError | OverflowError
| cv2_error.

Inductive result (A : Type) :=
| Ok (a : A)
| Raise (e : exn).
Arguments Ok {A} a.
Arguments Raise {A} e.

(** A computation over a mutable state [S]: an exception stops the
    computation but keeps every mutation made before it, as in Python. *)
Definition M (S A : Type) : Type := S -> result A * S.

Definition ret {S A} (a : A) : M S A := fun s => (Ok a, s).
Definition raise {S A} (e : exn) : M S A := fun s => (Raise e, s).
Definition bind {S A B} (m : M S A) (k : A -> M S B) : M S B :=
  fun s => match m s with
           | (Ok a, s') => k a s'
           | (Raise e, s') => (Raise e, s')
           end.
Definition get {S} : M S S := fun s => (Ok s, s).
Definition modify {S} (f : S -> S) : M S unit := fun s => (Ok tt, f s).
Definition lift {S A} (r : result A) : M S A := fun s => (r, s).

Declare Scope py_scope.
Delimit Scope py_scope with py.
Notation "x <- m ;; k" := (bind m (fun x => k))
  (at level 100, m at next level, right associativity) : py_scope.
Notation "m ;;; k" := (bind m (fun _ => k))
  (at level 100, right associativity) : py_scope.

(** Heap addresses of dictionaries. *)
Definition loc := nat.

(** The Python values that occur in overlay records. A dictionary is held
    by reference. *)
Inductive pyval :=
| PNone
| PInt (n : Z)
| PStr (s : string)
| PTuple (items : list pyval)
| PRef (l : loc).

(** The heap of dictionaries: address [l] is the [l]-th allocated one. *)
Definition heap := list (gmap string pyval).

Module Dict.
(** [{}] : a new empty dictionary. *)
Definition new : M heap loc :=
  fun h => (Ok (length h), h ++ [∅]).

(** [d.get(k)] : the value, or [None]. *)
Definition get_item (l : loc) (k : string) : M heap pyval :=
  fun h => (Ok (default PNone (default ∅ (h !! l) !! k)), h).

(** [d[k] = v]. *)
Definition set_item (l : loc) (k : string) (v : pyval) : M heap unit :=
  fun h => (Ok tt, <[l := <[k := v]> (default ∅ (h !! l))]> h).

(** [d.update(other)] : the keys of [other] overwrite those of [d]. *)
Definition update (l : loc) (other : gmap string pyval) : M heap unit :=
  fun h => (Ok tt, <[l := other ∪ default ∅ (h !! l)]> h).
End Dict.

(** [v[i]] for a constant index [i]. *)
Definition subscript (v : pyval) (i : nat) : result pyval :=
  match v with
  | PTuple items =>
      match items !! i with Some a => Ok a | None => Raise IndexError end
  | PStr s =>
      match String.get i s with
      | Some c => Ok (PStr (String c EmptyString))
      | None => Raise IndexError
      end
  | PRef _ => Raise KeyError
  | PNone | PInt _ => Raise TypeError
  end.

(* ===================================================================== *)
(** ** Python floats and integer conversions *)
(* ===================================================================== *)

Module PyFloat.
(** [float(n)], exact below 2^53 in absolute value. *)
Definition of_int (n : Z) : float :=
  if n <? 0 then PrimFloat.opp (PrimFloat.of_uint63 (Uint63.of_Z (- n)))
  else PrimFloat.of_uint63 (Uint63.of_Z n).

(** Truncation toward zero of a finite binary64 value. *)
Definition trunc (f : SpecFloat.spec_float) : option Z :=
  match f with
  | SpecFloat.S754_zero _ => Some 0
  | SpecFloat.S754_finite s m e =>
      let a := match e with
               | Z0 => Zpos m
               | Zpos p => Z.shiftl (Zpos m) (Zpos p)
               | Zneg p => Z.shiftr (Zpos m) (Zpos p)
               end in
      Some (if s then - a else a)
  | SpecFloat.S754_infinity _ | SpecFloat.S754_nan => None
  end.

(** [int(f)] : [OverflowError] on an infinity, [ValueError] on a NaN. *)
Definition to_int (f : float) : result Z :=
  match trunc (Prim2SF f) with
  | Some n => Ok n
  | None => if PrimFloat.is_nan f then Raise ValueError else Raise OverflowError
  end.

(** [a / b] on floats. *)
Definition truediv (a b : float) : result float :=
  if PrimFloat.is_zero b then Raise ZeroDivisionError
  else Ok (PrimFloat.div a b).
End PyFloat.

(* ===================================================================== *)
(** ** Qt value types *)
(* ===================================================================== *)

Module QPoint.
Record t := make { x : Z; y : Z }.

Definition isNull (p : t) : bool := (x p =? 0) && (y p =? 0).

(** [bool(p)] : PyQt's [QPoint.__bool__] is [not isNull()]. *)
Definition truthy (p : t) : bool := negb (isNull p).

Definition add (p q : t) : t := make (x p + x q) (y p + y q).
Definition sub (p q : t) : t := make (x p - x q) (y p - y q).

Definition int_min : Z := -2147483648.
Definition int_max : Z := 2147483647.

(** [QPoint(a, b)] called on Python values: both must be C ints. *)
Definition new (a b : pyval) : result t :=
  match a, b with
  | PInt n, PInt m =>
      if (int_min <=? n) && (n <=? int_max)
         && (int_min <=? m) && (m <=? int_max)
      then Ok (make n m) else Raise OverflowError
  | _, _ => Raise TypeError
  end.
End QPoint.

(** What the code reads of a [QColor]: [isValid()] and [name()]. *)
Module QColor.
Record t := make { isValid : bool; name : string }.
End QColor.

(* ===================================================================== *)
(** ** The clock and overlay identifiers *)
(* ===================================================================== *)

Record datetime := mk_datetime {
  year : N; month : N; day : N;
  hour : N; minute : N; second : N;
  microsecond : N
}.

(** Decimal digits of [n], left-padded with zeros to [width]. *)
Definition zero_padded (width : nat) (n : N) : string :=
  let s := NilZero.string_of_uint (N.to_uint n) in
  String.concat "" (replicate (width - String.length s)%nat "0"%string) +:+ s.

(** [t.strftime("%Y%m%d_%H%M%S_%f")]. *)
Definition strftime_stamp (t : datetime) : string :=
  zero_padded 4 (year t) +:+ zero_padded 2 (month t) +:+ zero_padded 2 (day t)
  +:+ "_" +:+ zero_padded 2 (hour t) +:+ zero_padded 2 (minute t)
  +:+ zero_padded 2 (second t) +:+ "_" +:+ zero_padded 6 (microsecond t).

(** [s[:-3]]. *)
Definition drop_last3 (s : string) : string :=
  String.substring 0 (String.length s - 3) s.

(** [datetime.now().strftime("%Y%m%d_%H%M%S_%f")[:-3]]. *)
Definition fresh_id (now : datetime) : string :=
  drop_last3 (strftime_stamp now).

(* ===================================================================== *)
(** ** The overlay classes *)
(* ===================================================================== *)

(** An instance of [NoteOverlay], [RulerOverlay] or
    [RegionOfInterestOverlay]. [id] and [data] are the attributes set by
    [AnalysisOverlay.__init__]; [data] is the address of the dictionary.
    [text] and [color] hold whatever the caller passed. *)
Inductive overlay :=
| Note (id : string) (data : loc)
       (position : QPoint.t) (text : pyval) (color : pyval)
| Ruler (id : string) (data : loc)
        (start_point end_point : QPoint.t) (color : pyval)
| ROI (id : string) (data : loc)
      (top_left bottom_right : QPoint.t) (color : pyval).

Definition overlay_id (o : overlay) : string :=
  match o with
  | Note i _ _ _ _ | Ruler i _ _ _ _ | ROI i _ _ _ _ => i
  end.

Definition overlay_data (o : overlay) : loc :=
  match o with
  | Note _ d _ _ _ | Ruler _ d _ _ _ | ROI _ d _ _ _ => d
  end.

(** The [type] attribute: the constant each subclass passes to
    [super().__init__]. *)
Definition overlay_type (o : overlay) : string :=
  match o with
  | Note _ _ _ _ _ => "Note"
  | Ruler _ _ _ _ _ => "Ruler"
  | ROI _ _ _ _ _ => "ROI"
  end.

(** [(p.x(), p.y())]. *)
Definition point_tuple (p : QPoint.t) : pyval :=
  PTuple [PInt (QPoint.x p); PInt (QPoint.y p)].

Module AnalysisOverlay.
(** [__init__(overlay_type, data)] : a fresh timestamp id, and
    [data if data is not None else {}]. Returns the two attributes. *)
Definition init (now : datetime) (data : option loc) : M heap (string * loc) :=
  (l <- match data with
        | Some l => ret l
        | None => Dict.new
        end ;;
   ret (fresh_id now, l))%py.

(** The base [to_dict]: a new record whose ["data"] entry is the
    overlay's own dictionary, not a copy. *)
Definition to_dict (o : overlay) : gmap string pyval :=
  {[ "id" := PStr (overlay_id o);
     "type" := PStr (overlay_type o);
     "data" := PRef (overlay_data o) ]}.
End AnalysisOverlay.

(** [d.get("data", {})] followed by the first [data.get(...)]: the
    dictionary to read from, a new empty one when the key is absent, and
    [AttributeError] when the entry is no dictionary. *)
Definition record_data (d : gmap string pyval) : M heap loc :=
  match d !! "data" with
  | None => Dict.new
  | Some (PRef l) => ret l
  | Some _ => raise AttributeError
  end.

Module NoteOverlay.
Definition new (now : datetime) (position : QPoint.t) (text color : pyval)
    (data : option loc) : M heap overlay :=
  (a <- AnalysisOverlay.init now data ;;
   ret (Note a.1 a.2 position text color))%py.

Definition to_dict (id : string) (data : loc) (position : QPoint.t)
    (text color : pyval) : M heap (gmap string pyval) :=
  let d := AnalysisOverlay.to_dict (Note id data position text color) in
  (Dict.update data {[ "position" := point_tuple position;
                       "text" := text;
                       "color" := color ]} ;;;
   ret d)%py.

Definition from_dict (now : datetime) (d : gmap string pyval) : M heap overlay :=
  (data <- record_data d ;;
   pos_tuple <- Dict.get_item data "position" ;;
   a <- lift (subscript pos_tuple 0) ;;
   b <- lift (subscript pos_tuple 1) ;;
   position <- lift (QPoint.new a b) ;;
   text <- Dict.get_item data "text" ;;
   color <- Dict.get_item data "color" ;;
   new now position text color (Some data))%py.
End NoteOverlay.

Module RulerOverlay.
Definition new (now : datetime) (start_point end_point : QPoint.t)
    (color : pyval) (data : option loc) : M heap overlay :=
  (a <- AnalysisOverlay.init now data ;;
   ret (Ruler a.1 a.2 start_point end_point color))%py.

Definition to_dict (id : string) (data : loc)
    (start_point end_point : QPoint.t) (color : pyval)
    : M heap (gmap string pyval) :=
  let d := AnalysisOverlay.to_dict (Ruler id data start_point end_point color) in
  (note <- Dict.get_item data "note" ;;
   Dict.update data {[ "start_point" := point_tuple start_point;
                       "end_point" := point_tuple end_point;
                       "color" := color;
                       "note" := note ]} ;;;
   ret d)%py.

Definition from_dict (now : datetime) (d : gmap string pyval) : M heap overlay :=
  (data <- record_data d ;;
   start_tuple <- Dict.get_item data "start_point" ;;
   end_tuple <- Dict.get_item data "end_point" ;;
   a <- lift (subscript start_tuple 0) ;;
   b <- lift (subscript start_tuple 1) ;;
   start_point <- lift (QPoint.new a b) ;;
   a' <- lift (subscript end_tuple 0) ;;
   b' <- lift (subscript end_tuple 1) ;;
   end_point <- lift (QPoint.new a' b') ;;
   color <- Dict.get_item data "color" ;;
   new now start_point end_point color (Some data))%py.
End RulerOverlay.

Module RegionOfInterestOverlay.
Definition new (now : datetime) (top_left bottom_right : QPoint.t)
    (color : pyval) (data : option loc) : M heap overlay :=
  (a <- AnalysisOverlay.init now data ;;
   ret (ROI a.1 a.2 top_left bottom_right color))%py.

Definition to_dict (id : string) (data : loc)
    (top_left bottom_right : QPoint.t) (color : pyval)
    : M heap (gmap string pyval) :=
  let d := AnalysisOverlay.to_dict (ROI id data top_left bottom_right color) in
  (Dict.update data {[ "top_left" := point_tuple top_left;
                       "bottom_right" := point_tuple bottom_right;
                       "color" := color ]} ;;;
   ret d)%py.

Definition from_dict (now : datetime) (d : gmap string pyval) : M heap overlay :=
  (data <- record_data d ;;
   tl_tuple <- Dict.get_item data "top_left" ;;
   br_tuple <- Dict.get_item data "bottom_right" ;;
   a <- lift (subscript tl_tuple 0) ;;
   b <- lift (subscript tl_tuple 1) ;;
   top_left <- lift (QPoint.new a b) ;;
   a' <- lift (subscript br_tuple 0) ;;
   b' <- lift (subscript br_tuple 1) ;;
   bottom_right <- lift (QPoint.new a' b') ;;
   color <- Dict.get_item data "color" ;;
   new now top_left bottom_right color (Some data))%py.
End RegionOfInterestOverlay.

(** Method dispatch of [overlay.to_dict()]. *)
Definition to_dict (o : overlay) : M heap (gmap string pyval) :=
  match o with
  | Note i d p t c => NoteOverlay.to_dict i d p t c
  | Ruler i d s e c => RulerOverlay.to_dict i d s e c
  | ROI i d tl br c => RegionOfInterestOverlay.to_dict i d tl br c
  end.

(** [AnalysisOverlay.from_dict(d)] : the static dispatcher on
    [d.get("type")]; [None] for any other kind. *)
Definition from_dict (now : datetime) (d : gmap string pyval)
    : M heap (option overlay) :=
  match d !! "type" with
  | Some (PStr "Note") => (o <- NoteOverlay.from_dict now d ;; ret (Some o))%py
  | Some (PStr "Ruler") => (o <- RulerOverlay.from_dict now d ;; ret (Some o))%py
  | Some (PStr "ROI") =>
      (o <- RegionOfInterestOverlay.from_dict now d ;; ret (Some o))%py
  | _ => ret None
  end.

(* ===================================================================== *)
(** ** Rasters and the OpenCV operations *)
(* ===================================================================== *)

(** One 8-bit three-channel pixel, channels in array order (B, G, R for a
    BGR image; the same triple holds L, a, b or H, S, V after a conversion). *)
Definition pixel : Type := Z * Z * Z.
(** A three-channel image, as rows of pixels; a single-channel image. *)
Definition image : Type := list (list pixel).
Definition gray_image : Type := list (list Z).

(** [img.shape[0]] and [img.shape[1]]. *)
Definition shape0 {A} (img : list (list A)) : Z := Z.of_nat (length img).
Definition shape1 {A} (img : list (list A)) : Z :=
  Z.of_nat (length (default [] (head img))).

(** The OpenCV operations whose numerics are the library's own: colour
    space conversions, CLAHE, saturating multiplication and bilinear
    resampling. The code is verified for every implementation of them. *)
Record cv2 := {
  (** the grey level [COLOR_BGR2GRAY] gives one pixel *)
  luma : pixel -> Z;
  COLOR_BGR2LAB : image -> image;
  COLOR_LAB2BGR : image -> image;
  COLOR_BGR2HSV : image -> image;
  COLOR_HSV2BGR : image -> image;
  (** [createCLAHE(clipLimit, tileGridSize=(8,8)).apply] *)
  clahe_apply : float -> gray_image -> gray_image;
  (** [cv2.multiply(channel, factor)] *)
  multiply : gray_image -> float -> gray_image;
  (** [cv2.resize(img, (width, height), INTER_LINEAR)] to a different size *)
  resize_linear : image -> Z -> Z -> image
}.

Module Cv.
Definition split (img : image) : gray_image * gray_image * gray_image :=
  (map (map (fun p : pixel => p.1.1)) img,
   map (map (fun p : pixel => p.1.2)) img,
   map (map (fun p : pixel => p.2)) img).

Definition merge (c0 c1 c2 : gray_image) : image :=
  zip_with (fun r0 r12 => zip_with (fun a bc => (a, bc.1, bc.2)) r0 r12)
           c0 (zip_with zip c1 c2).

(** [np.clip(a, lo, hi)]. *)
Definition clip (a : gray_image) (lo hi : Z) : gray_image :=
  map (map (fun v => Z.min hi (Z.max lo v))) a.

(** [cv2.bitwise_not] on 8-bit values. *)
Definition bitwise_not (a : gray_image) : gray_image :=
  map (map (fun v => 255 - v)) a.

(** [255 - channel] on 8-bit values. *)
Definition rsub255 (a : gray_image) : gray_image :=
  map (map (fun v => 255 - v)) a.

(** [cv2.threshold(gray, thresh, maxval, THRESH_BINARY)[1]]. *)
Definition threshold_binary (a : gray_image) (thresh maxval : Z) : gray_image :=
  map (map (fun v => if thresh <? v then maxval else 0)) a.

Definition BGR2GRAY (cv : cv2) (img : image) : gray_image :=
  map (map (luma cv)) img.

Definition GRAY2BGR (a : gray_image) : image :=
  map (map (fun v => (v, v, v))) a.

(** Maximum of each element with its left neighbour. *)
Definition max_with_left (row : list Z) : list Z :=
  zip_with Z.max row (match row with [] => [] | a :: _ => a :: row end).

(** [cv2.dilate(gray, np.ones((2,2)), iterations=1)] : the anchor of a
    2x2 kernel is (1,1), so each pixel becomes the maximum of itself and
    its left, upper and upper-left neighbours inside the image. *)
Definition dilate2 (a : gray_image) : gray_image :=
  let rows := map max_with_left a in
  zip_with (zip_with Z.max) rows
           (match rows with [] => [] | r :: _ => r :: rows end).

(** [cv2.resize(img, (width, height), interpolation=INTER_LINEAR)] : an
    empty target size is an error, the source size a plain copy. *)
Definition resize (cv : cv2) (img : image) (width height : Z) : result image :=
  if (width <=? 0) || (height <=? 0) then Raise cv2_error
  else if (width =? shape1 img) && (height =? shape0 img) then Ok img
  else Ok (resize_linear cv img width height).
End Cv.

(** [int(n * scale_percent / 100)] on Python integers. *)
Definition scaled_size (n scale_percent : Z) : result Z :=
  PyFloat.to_int (PrimFloat.div (PyFloat.of_int (n * scale_percent))
                                (PyFloat.of_int 100)).

(** The float literals of the filter block. *)
Definition f1_3 : float := 0x1.4cccccccccccdp+0%float.
Definition f1_2 : float := 0x1.3333333333333p+0%float.

(** The [if mode == 1: ... elif mode == 7: ...] block, which stands in
    [update_zoom] (on [working_image]) and, statement for statement, in
    [export_current_view] (on [image_to_save]). *)
Definition contrast_filter (cv : cv2) (mode : Z) (img : image) : image :=
  match mode with
  | 1 =>
      let lab := COLOR_BGR2LAB cv img in
      let '(l, a, b) := Cv.split lab in
      let l := clahe_apply cv 3%float l in
      let lab := Cv.merge l a b in
      let img := COLOR_LAB2BGR cv lab in
      let hsv := COLOR_BGR2HSV cv img in
      let '(h, s, v) := Cv.split hsv in
      let s := multiply cv s f1_3 in
      let s := Cv.clip s 0 255 in
      COLOR_HSV2BGR cv (Cv.merge h s v)
  | 2 =>
      let lab := COLOR_BGR2LAB cv img in
      let '(l, a, b) := Cv.split lab in
      let l := clahe_apply cv 5%float l in
      let a := multiply cv a f1_2 in
      let b := multiply cv b f1_2 in
      let a := Cv.clip a 0 255 in
      let b := Cv.clip b 0 255 in
      COLOR_LAB2BGR cv (Cv.merge l a b)
  | 3 =>
      let hsv := COLOR_BGR2HSV cv img in
      let '(h, s, v) := Cv.split hsv in
      COLOR_HSV2BGR cv (Cv.merge h s (Cv.rsub255 v))
  | 4 =>
      let gray := Cv.BGR2GRAY cv img in
      Cv.GRAY2BGR (Cv.bitwise_not gray)
  | 5 =>
      let gray := Cv.BGR2GRAY cv img in
      Cv.GRAY2BGR (clahe_apply cv 4%float gray)
  | 6 =>
      let gray := Cv.BGR2GRAY cv img in
      Cv.GRAY2BGR (Cv.bitwise_not (clahe_apply cv 4%float gray))
  | 7 =>
      let gray := Cv.BGR2GRAY cv img in
      Cv.GRAY2BGR (Cv.threshold_binary gray 120 255)
  | _ => img
  end.

(** The filter stage of [update_zoom]:
    [if enhanced_mode_checkbox.isChecked() and contrast_mode != 0]. *)
Definition apply_filter (cv : cv2) (enhanced : bool) (mode : Z) (img : image)
    : image :=
  if enhanced && negb (mode =? 0) then contrast_filter cv mode img else img.

(** The trace-enhancement stage of [update_zoom]. *)
Definition apply_trace_enhancement (cv : cv2) (active : bool) (img : image)
    : image :=
  if active then Cv.GRAY2BGR (Cv.dilate2 (Cv.BGR2GRAY cv img)) else img.

(* ===================================================================== *)
(** ** The viewer: state *)
(* ===================================================================== *)

(** The attributes of [ImageZoomViewer] the modelled methods read or
    write. [image_label_pixmap] is the raster [update_zoom] last put on
    the label, in BGR channel order and before the overlays are painted on
    it; [label_origin] is the position of the label inside the scroll
    area's viewport, which [mapFrom] subtracts. *)
Record viewer := mk_viewer {
  original_image : option image;
  zoom_slider : Z;
  enhanced_mode_checkbox : bool;
  contrast_mode : Z;
  trace_enhancement_active : bool;
  image_label_pixmap : option image;
  label_origin : QPoint.t;
  analysis_mode_active : bool;
  current_analysis_tool : string;
  analysis_overlays : list (option overlay);
  drawing_overlay : option overlay;
  drawing_start_point : option QPoint.t;
  dicts : heap
}.

Definition set_pixmap (p : option image) (v : viewer) : viewer :=
  mk_viewer (original_image v) (zoom_slider v) (enhanced_mode_checkbox v)
    (contrast_mode v) (trace_enhancement_active v) p (label_origin v)
    (analysis_mode_active v) (current_analysis_tool v) (analysis_overlays v)
    (drawing_overlay v) (drawing_start_point v) (dicts v).

Definition set_analysis_mode (active : bool) (tool : string) (v : viewer)
    : viewer :=
  mk_viewer (original_image v) (zoom_slider v) (enhanced_mode_checkbox v)
    (contrast_mode v) (trace_enhancement_active v) (image_label_pixmap v)
    (label_origin v) active tool (analysis_overlays v)
    (drawing_overlay v) (drawing_start_point v) (dicts v).

Definition set_overlays (l : list (option overlay)) (v : viewer) : viewer :=
  mk_viewer (original_image v) (zoom_slider v) (enhanced_mode_checkbox v)
    (contrast_mode v) (trace_enhancement_active v) (image_label_pixmap v)
    (label_origin v) (analysis_mode_active v) (current_analysis_tool v) l
    (drawing_overlay v) (drawing_start_point v) (dicts v).

Definition set_drawing_overlay (o : option overlay) (v : viewer) : viewer :=
  mk_viewer (original_image v) (zoom_slider v) (enhanced_mode_checkbox v)
    (contrast_mode v) (trace_enhancement_active v) (image_label_pixmap v)
    (label_origin v) (analysis_mode_active v) (current_analysis_tool v)
    (analysis_overlays v) o (drawing_start_point v) (dicts v).

Definition set_drawing_start_point (p : option QPoint.t) (v : viewer)
    : viewer :=
  mk_viewer (original_image v) (zoom_slider v) (enhanced_mode_checkbox v)
    (contrast_mode v) (trace_enhancement_active v) (image_label_pixmap v)
    (label_origin v) (analysis_mode_active v) (current_analysis_tool v)
    (analysis_overlays v) (drawing_overlay v) p (dicts v).

Definition set_dicts (h : heap) (v : viewer) : viewer :=
  mk_viewer (original_image v) (zoom_slider v) (enhanced_mode_checkbox v)
    (contrast_mode v) (trace_enhancement_active v) (image_label_pixmap v)
    (label_origin v) (analysis_mode_active v) (current_analysis_tool v)
    (analysis_overlays v) (drawing_overlay v) (drawing_start_point v) h.

(** Run a computation on the dictionaries of the viewer. *)
Definition on_dicts {A} (m : M heap A) : M viewer A :=
  fun v => let '(r, h) := m (dicts v) in (r, set_dicts h v).

(** [self.analysis_overlays.append(o)]. *)
Definition append_overlay (o : option overlay) : M viewer unit :=
  modify (fun v => set_overlays (analysis_overlays v ++ [o]) v).

(* ===================================================================== *)
(** ** Rendering: overlay geometry in display space, the two rasters *)
(* ===================================================================== *)

Definition result_bind {A B} (r : result A) (k : A -> result B) : result B :=
  match r with Ok a => k a | Raise e => Raise e end.

(** [int(n * zoom_factor)], one coordinate of a [draw] method. *)
Definition display_coord (n : Z) (zoom_factor : float) : result Z :=
  PyFloat.to_int (PrimFloat.mul (PyFloat.of_int n) zoom_factor).

(** [QPoint(int(p.x() * zoom_factor), int(p.y() * zoom_factor))], the first
    statement of every [draw] method. *)
Definition scale_to_display (p : QPoint.t) (zoom_factor : float)
    : result QPoint.t :=
  result_bind (display_coord (QPoint.x p) zoom_factor) (fun sx =>
  result_bind (display_coord (QPoint.y p) zoom_factor) (fun sy =>
  QPoint.new (PInt sx) (PInt sy))).

(** [overlay.draw(painter, zoom_factor)] : the display-space points the
    painter is given. Painting itself is Qt's. *)
Definition draw (o : overlay) (zoom_factor : float) : result (list QPoint.t) :=
  match o with
  | Note _ _ position _ _ =>
      result_bind (scale_to_display position zoom_factor)
        (fun p => Ok [p])
  | Ruler _ _ start_point end_point _ =>
      result_bind (scale_to_display start_point zoom_factor) (fun s =>
      result_bind (scale_to_display end_point zoom_factor) (fun e =>
      Ok [s; e]))
  | ROI _ _ top_left bottom_right _ =>
      result_bind (scale_to_display top_left zoom_factor) (fun tl =>
      result_bind (scale_to_display bottom_right zoom_factor) (fun br =>
      Ok [tl; br]))
  end.

(** [for overlay in self.analysis_overlays: overlay.draw(...)] : a [None]
    in the list has no [draw] attribute. *)
Fixpoint draw_all (l : list (option overlay)) (zoom_factor : float)
    : result unit :=
  match l with
  | [] => Ok tt
  | None :: _ => Raise AttributeError
  | Some o :: rest =>
      result_bind (draw o zoom_factor) (fun _ => draw_all rest zoom_factor)
  end.

(** [scale_percent / 100.0]. *)
Definition zoom_factor_of (scale_percent : Z) : float :=
  PrimFloat.div (PyFloat.of_int scale_percent) 100%float.

Section Rasters.
Variable cv : cv2.

(** [update_zoom], from [working_image = self.original_image.copy()] to
    [resized] : filter, then trace enhancement, then scaling. *)
Definition zoom_raster (v : viewer) (img : image) : result image :=
  let scale_percent := zoom_slider v in
  let working_image := img in
  let working_image :=
    apply_filter cv (enhanced_mode_checkbox v) (contrast_mode v)
                 working_image in
  let working_image :=
    apply_trace_enhancement cv (trace_enhancement_active v) working_image in
  result_bind (scaled_size (shape1 working_image) scale_percent) (fun width =>
  result_bind (scaled_size (shape0 working_image) scale_percent) (fun height =>
  Cv.resize cv working_image width height)).

(** [export_current_view], from the size computation to the argument of
    [cv2.imwrite] : scaling of the original, then the filter block. *)
Definition export_raster (v : viewer) (img : image) : result image :=
  let scale_percent := zoom_slider v in
  result_bind (scaled_size (shape1 img) scale_percent) (fun width =>
  result_bind (scaled_size (shape0 img) scale_percent) (fun height =>
  result_bind (Cv.resize cv img width height) (fun image_to_save =>
  Ok (apply_filter cv (enhanced_mode_checkbox v) (contrast_mode v)
                   image_to_save)))).

(** [update_zoom()] : nothing without an image; otherwise the raster is
    computed, the overlays and the draft are painted on it and the
    result becomes the label's pixmap. *)
Definition update_zoom : M viewer unit :=
  (v <- get ;;
   match original_image v with
   | None => ret tt
   | Some img =>
       resized <- lift (zoom_raster v img) ;;
       let zoom_factor := zoom_factor_of (zoom_slider v) in
       lift (draw_all (analysis_overlays v) zoom_factor) ;;;
       match drawing_overlay v with
       | Some o => lift (draw o zoom_factor)
       | None => ret []
       end ;;;
       modify (set_pixmap (Some resized))
   end)%py.

(** [export_current_view()] with the path the file dialog returned (empty
    when cancelled): the raster written, if any. *)
Definition export_current_view (save_path : string)
    : M viewer (option image) :=
  (v <- get ;;
   match original_image v with
   | None => ret None
   | Some img =>
       if bool_decide (save_path = "") then ret None
       else (image_to_save <- lift (export_raster v img) ;;
             ret (Some image_to_save))
   end)%py.

(* =================================================================== *)
(** ** Coordinate conversion *)
(* =================================================================== *)

(** [int(n / zoom_factor)], one coordinate of [get_image_coordinates]. *)
Definition image_coord (n : Z) (zoom_factor : float) : result Z :=
  result_bind (PyFloat.truediv (PyFloat.of_int n) zoom_factor) PyFloat.to_int.

(** [image_x] and [image_y] of [get_image_coordinates]. *)
Definition image_xy (label_pos : QPoint.t) (zoom_factor : float)
    : result (Z * Z) :=
  result_bind (image_coord (QPoint.x label_pos) zoom_factor) (fun image_x =>
  result_bind (image_coord (QPoint.y label_pos) zoom_factor) (fun image_y =>
  Ok (image_x, image_y))).

(** [get_image_coordinates(mouse_pos)]. *)
Definition get_image_coordinates (v : viewer) (mouse_pos : QPoint.t)
    : result (option QPoint.t) :=
  match image_label_pixmap v with
  | None => Ok None
  | Some _ =>
      let label_pos := QPoint.sub mouse_pos (label_origin v) in
      match original_image v with
      | None => Ok None
      | Some img =>
          let original_width := shape1 img in
          let original_height := shape0 img in
          let zoom_factor := zoom_factor_of (zoom_slider v) in
          result_bind (image_xy label_pos zoom_factor) (fun xy =>
          let '(image_x, image_y) := xy in
          if (0 <=? image_x) && (image_x <? original_width)
             && (0 <=? image_y) && (image_y <? original_height)
          then result_bind (QPoint.new (PInt image_x) (PInt image_y))
                           (fun p => Ok (Some p))
          else Ok None)
      end
  end.
End Rasters.

(* ===================================================================== *)
(** ** The editing handlers *)
(* ===================================================================== *)

(** What a [QInputDialog.getText] call returned: [(text, ok)]. *)
Definition text_reply : Type := string * bool.

(** [ok and text] as a condition. *)
Definition accepted (r : text_reply) : bool :=
  r.2 && negb (bool_decide (r.1 = "")).

(** [self.drawing_overlay and self.drawing_start_point] as a condition. *)
Definition drawing_in_progress (v : viewer) : bool :=
  match drawing_overlay v, drawing_start_point v with
  | Some _, Some p => QPoint.truthy p
  | _, _ => false
  end.

Section Handlers.
Variable cv : cv2.

(** [handle_analysis_mouse_press(event)] : [now] is the clock reading an
    overlay constructor would see, [text] the reply of the note dialog,
    [color] the reply of the colour dialog. *)
Definition handle_analysis_mouse_press (now : datetime)
    (event_pos : QPoint.t) (text : text_reply) (color : QColor.t)
    : M viewer unit :=
  (v <- get ;;
   pos <- lift (get_image_coordinates v event_pos) ;;
   match pos with
   | None => ret tt
   | Some pos =>
       if bool_decide (current_analysis_tool v = "Note") then
         if accepted text then
           note <- on_dicts (NoteOverlay.new now pos (PStr text.1)
                                             (PStr "#00FF00") None) ;;
           append_overlay (Some note) ;;;
           update_zoom cv
         else ret tt
       else if bool_decide (current_analysis_tool v = "Ruler") then
         if negb (QColor.isValid color) then ret tt
         else
           modify (set_drawing_start_point (Some pos)) ;;;
           ruler <- on_dicts (RulerOverlay.new now pos pos
                                (PStr (QColor.name color)) None) ;;
           modify (set_drawing_overlay (Some ruler))
       else if bool_decide (current_analysis_tool v = "ROI") then
         modify (set_drawing_start_point (Some pos)) ;;;
         roi <- on_dicts (RegionOfInterestOverlay.new now pos pos
                            (PStr "#0000FF") None) ;;
         modify (set_drawing_overlay (Some roi))
       else ret tt
   end)%py.

(** The assignment to the free endpoint made by move and release:
    [end_point] of a ruler, [bottom_right] of a region, nothing else. *)
Definition with_free_endpoint (pos : QPoint.t) (o : overlay) : overlay :=
  match o with
  | Ruler i d s _ c => Ruler i d s pos c
  | ROI i d tl _ c => ROI i d tl pos c
  | Note _ _ _ _ _ => o
  end.

(** [handle_analysis_mouse_move(event)]. *)
Definition handle_analysis_mouse_move (event_pos : QPoint.t)
    : M viewer unit :=
  (v <- get ;;
   pos <- lift (get_image_coordinates v event_pos) ;;
   match pos with
   | None => ret tt
   | Some pos =>
       if drawing_in_progress v then
         modify (set_drawing_overlay
                   (with_free_endpoint pos <$> drawing_overlay v)) ;;;
         update_zoom cv
       else ret tt
   end)%py.

(** [handle_analysis_mouse_release(event)] : [note] is the reply of the
    note dialog shown for a ruler or a region. *)
Definition handle_analysis_mouse_release (event_pos : QPoint.t)
    (note : text_reply) : M viewer unit :=
  (v <- get ;;
   if drawing_in_progress v then
     pos <- lift (get_image_coordinates v event_pos) ;;
     match pos with
     | None => ret tt
     | Some pos =>
         match drawing_overlay v with
         | Some (Note _ _ _ _ _) | None => ret tt
         | Some o =>
             let o := with_free_endpoint pos o in
             modify (set_drawing_overlay (Some o)) ;;;
             (if accepted note
              then on_dicts (Dict.set_item (overlay_data o) "note"
                                           (PStr note.1))
              else ret tt) ;;;
             append_overlay (Some o)
         end ;;;
         modify (set_drawing_overlay None) ;;;
         modify (set_drawing_start_point None) ;;;
         update_zoom cv
     end
   else ret tt)%py.

Inductive button := LeftButton | RightButton | OtherButton.

(** [mousePressEvent] : the left button goes to the analysis handler in
    analysis mode (and starts a pan otherwise, which touches none of the
    modelled attributes); the right button cancels a draft. *)
Definition mousePressEvent (b : button) (now : datetime)
    (event_pos : QPoint.t) (text : text_reply) (color : QColor.t)
    : M viewer unit :=
  (v <- get ;;
   match b with
   | LeftButton =>
       if analysis_mode_active v
       then handle_analysis_mouse_press now event_pos text color
       else ret tt
   | RightButton =>
       if analysis_mode_active v && bool_decide (is_Some (drawing_overlay v))
       then
         modify (set_drawing_overlay None) ;;;
         modify (set_drawing_start_point None) ;;;
         update_zoom cv
       else ret tt
   | OtherButton => ret tt
   end)%py.

Definition mouseMoveEvent (event_pos : QPoint.t) : M viewer unit :=
  (v <- get ;;
   if analysis_mode_active v then handle_analysis_mouse_move event_pos
   else ret tt)%py.

Definition mouseReleaseEvent (b : button) (event_pos : QPoint.t)
    (note : text_reply) : M viewer unit :=
  (v <- get ;;
   match b with
   | LeftButton =>
       if analysis_mode_active v
       then handle_analysis_mouse_release event_pos note
       else ret tt
   | _ => ret tt
   end)%py.

(** [toggle_analysis_mode()] : [checked] is the button state,
    [combo_text] the current text of the tool combo box. *)
Definition toggle_analysis_mode (checked : bool) (combo_text : string)
    : M viewer unit :=
  (v <- get ;;
   if checked then modify (set_analysis_mode true combo_text)
   else
     modify (set_analysis_mode false (current_analysis_tool v)) ;;;
     modify (set_drawing_overlay None) ;;;
     modify (set_drawing_start_point None))%py.

(** [delete_overlay(index, refresh_callback)] : the callback refreshes a
    table widget only. *)
Definition delete_overlay (index : Z) : M viewer unit :=
  (v <- get ;;
   if (0 <=? index) && (index <? Z.of_nat (length (analysis_overlays v)))
   then
     modify (set_overlays (delete (Z.to_nat index) (analysis_overlays v))) ;;;
     update_zoom cv
   else ret tt)%py.

(* =================================================================== *)
(** ** Persistence of the overlays *)
(* =================================================================== *)

(** The loop of [closeEvent] and [export_overlays] :
    [overlays_data.append(overlay.to_dict())]. *)
Fixpoint overlays_to_dicts (l : list (option overlay))
    : M heap (list (gmap string pyval)) :=
  match l with
  | [] => ret []
  | None :: _ => raise AttributeError
  | Some o :: rest =>
      (d <- to_dict o ;;
       ds <- overlays_to_dicts rest ;;
       ret (d :: ds))%py
  end.

Definition closeEvent_overlays : M viewer (list (gmap string pyval)) :=
  (v <- get ;; on_dicts (overlays_to_dicts (analysis_overlays v)))%py.

(** The loop of [restore_session] :
    [overlay = AnalysisOverlay.from_dict(overlay_data)] and
    [self.analysis_overlays.append(overlay)]. [clock i] is the reading
    of the clock while record [i] is loaded. *)
Fixpoint load_overlays (clock : nat -> datetime) (i : nat)
    (overlays_data : list (gmap string pyval)) : M viewer unit :=
  match overlays_data with
  | [] => ret tt
  | overlay_data :: rest =>
      (overlay <- on_dicts (from_dict (clock i) overlay_data) ;;
       append_overlay overlay ;;;
       load_overlays clock (S i) rest)%py
  end.

(** The overlay part of [restore_session]. *)
Definition restore_session_overlays (clock : nat -> datetime)
    (overlays_data : list (gmap string pyval)) : M viewer unit :=
  (modify (set_overlays []) ;;;
   load_overlays clock 0 overlays_data)%py.
End Handlers.


(* ===================================================================== *)
(** ** Event sequences *)
(* ===================================================================== *)

(** What the user can do in an editing session, with the replies of the
    dialogs and the clock reading each event would meet. *)
Inductive event :=
| Press (b : button) (now : datetime) (pos : QPoint.t)
        (text : text_reply) (color : QColor.t)
| Move (pos : QPoint.t)
| Release (b : button) (pos : QPoint.t) (note : text_reply)
| ToggleAnalysis (checked : bool) (combo_text : string).

Definition dispatch (cv : cv2) (e : event) : M viewer unit :=
  match e with
  | Press b now pos text color => mousePressEvent cv b now pos text color
  | Move pos => mouseMoveEvent cv pos
  | Release b pos note => mouseReleaseEvent cv b pos note
  | ToggleAnalysis checked combo_text => toggle_analysis_mode checked combo_text
  end.

(** The events in order; an exception that leaves a handler ends the run. *)
Fixpoint run (cv : cv2) (evs : list event) : M viewer unit :=
  match evs with
  | [] => ret tt
  | e :: rest => (dispatch cv e ;;; run cv rest)%py
  end.

(* ===================================================================== *)
(** ** Properties stated about the model *)
(* ===================================================================== *)

(** The colour the press handler hard-codes for the kind of [o]; a ruler
    has none. *)
Definition has_fixed_color (o : option overlay) : Prop :=
  match o with
  | Some (Note _ _ _ _ c) => c = PStr "#00FF00"
  | Some (ROI _ _ _ _ c) => c = PStr "#0000FF"
  | Some (Ruler _ _ _ _ _) | None => True
  end.

(** The entries [to_dict] writes into the overlay's dictionary, given the
    dictionary [m] as it was. *)
Definition written_entries (o : overlay) (m : gmap string pyval)
    : list (string * pyval) :=
  match o with
  | Note _ _ position text color =>
      [("position", point_tuple position); ("text", text); ("color", color)]
  | Ruler _ _ start_point end_point color =>
      [("start_point", point_tuple start_point);
       ("end_point", point_tuple end_point);
       ("color", color);
       ("note", default PNone (m !! "note"))]
  | ROI _ _ top_left bottom_right color =>
      [("top_left", point_tuple top_left);
       ("bottom_right", point_tuple bottom_right);
       ("color", color)]
  end.

(** [o] with another identifier. *)
Definition with_id (i : string) (o : overlay) : overlay :=
  match o with
  | Note _ d p t c => Note i d p t c
  | Ruler _ d s e c => Ruler i d s e c
  | ROI _ d tl br c => ROI i d tl br c
  end.

(** Both coordinates fit a C int. *)
Definition in_int_range (p : QPoint.t) : Prop :=
  (QPoint.int_min <= QPoint.x p <= QPoint.int_max)
  /\ (QPoint.int_min <= QPoint.y p <= QPoint.int_max).

(** The geometry of an overlay fits C ints (as every [QPoint] does). *)
Definition geometry_in_range (o : overlay) : Prop :=
  match o with
  | Note _ _ p _ _ => in_int_range p
  | Ruler _ _ s e _ => in_int_range s /\ in_int_range e
  | ROI _ _ tl br _ => in_int_range tl /\ in_int_range br
  end.


(** [f] holds at [start], [start + 1], ..., [start + n - 1]. *)
Fixpoint all_from (f : Z -> bool) (start : Z) (n : nat) : bool :=
  match n with
  | O => true
  | S k => f start && all_from f (start + 1) k
  end.


(* ===================================================================== *)
(** ** Sample data *)
(* ===================================================================== *)

(** An implementation of the OpenCV operations to run the model on
    examples: the 8-bit fixed-point grey weights, a black image of the
    requested size for a true resampling, the identity elsewhere. Every
    theorem below holds for all implementations. *)
Definition cv2_sample : cv2 := {|
  luma := fun p => (p.1.1 * 1868 + p.1.2 * 9617 + p.2 * 4899 + 8192) / 16384;
  COLOR_BGR2LAB := fun img => img;
  COLOR_LAB2BGR := fun img => img;
  COLOR_BGR2HSV := fun img => img;
  COLOR_HSV2BGR := fun img => img;
  clahe_apply := fun _ a => a;
  multiply := fun a _ => a;
  resize_linear := fun _ w h =>
    replicate (Z.to_nat h) (replicate (Z.to_nat w) (0, 0, 0))
|}.

Definition black (w h : nat) : image := replicate h (replicate w (0, 0, 0)).

(** A viewer with [img] loaded at [zoom] percent, a pixmap on the label
    (the handlers only test that there is one), no overlay, and analysis
    mode on with [tool] armed. *)
Definition showing (img : image) (zoom : Z) (tool : string) : viewer :=
  mk_viewer (Some img) zoom false 0 false (Some img) (QPoint.make 0 0)
            true tool [] None None [].

Definition t0 : datetime := mk_datetime 2024 1 15 9 30 0 123456.
Definition t1 : datetime := mk_datetime 2024 1 15 9 31 10 5000.
Definition t2 : datetime := mk_datetime 2024 1 15 9 32 20 999999.
(** The clock of a later session. *)
Definition later (i : nat) : datetime :=
  mk_datetime 2024 2 1 8 0 (N.of_nat i) 250000.

Definition red : QColor.t := QColor.make true "#FF0000".
Definition no_reply : text_reply := ("", false).

(** One overlay of each kind, created in an earlier session, with their
    dictionaries at addresses 0, 1 and 2. *)
Definition note0 : overlay :=
  Note (fresh_id t0) 0%nat (QPoint.make 5 7) (PStr "spike") (PStr "#00FF00").
Definition ruler0 : overlay :=
  Ruler (fresh_id t1) 1%nat (QPoint.make 10 10) (QPoint.make 100 10)
        (PStr "#FF0000").
Definition roi0 : overlay :=
  ROI (fresh_id t2) 2%nat (QPoint.make 20 3) (QPoint.make 60 18)
      (PStr "#0000FF").

Definition store3 : viewer :=
  mk_viewer (Some (black 120 20)) 100 false 0 false (Some (black 120 20))
            (QPoint.make 0 0) true "Note"
            [Some note0; Some ruler0; Some roi0] None None
            [∅; {[ "note" := PStr "baseline" ]}; ∅].

(** [store3] with the ruler tool armed. *)
Definition store3_ruler : viewer := set_analysis_mode true "Ruler" store3.

(** What a run of handlers may do to the overlay list when every draft had
    its hard-coded colour before: append overlays that have theirs, and
    leave a draft that has its own. *)
Definition commits_fixed_colors (v v' : viewer) : Prop :=
  has_fixed_color (drawing_overlay v) ->
  (exists new, analysis_overlays v' = analysis_overlays v ++ new
               /\ Forall has_fixed_color new)
  /\ has_fixed_color (drawing_overlay v').

(** An editing session: a note, then a region drawn with the ROI tool. *)
Definition session_note_roi : list event :=
  [ Press LeftButton t0 (QPoint.make 5 7) ("spike", true) red;
    ToggleAnalysis true "ROI";
    Press LeftButton t1 (QPoint.make 20 30) no_reply red;
    Move (QPoint.make 40 50);
    Release LeftButton (QPoint.make 60 80) ("focus", true) ].

(** Persisted records of a note, of an overlay of a kind the loader does
    not know, of a ruler, and of a region whose dictionary lacks its
    geometry; [saved_dicts] holds their [data] dictionaries. *)
Definition rec_note : gmap string pyval :=
  {[ "id" := PStr "20240115_093000_123"; "type" := PStr "Note";
     "data" := PRef 0%nat ]}.
Definition rec_unknown : gmap string pyval :=
  {[ "id" := PStr "20240115_093050_000"; "type" := PStr "Unknown";
     "data" := PRef 1%nat ]}.
Definition rec_ruler : gmap string pyval :=
  {[ "id" := PStr "20240115_093110_005"; "type" := PStr "Ruler";
     "data" := PRef 2%nat ]}.
Definition rec_no_geometry : gmap string pyval :=
  {[ "id" := PStr "20240115_093050_000"; "type" := PStr "ROI";
     "data" := PRef 1%nat ]}.

Definition saved_dicts : heap :=
  [ {[ "position" := PTuple [PInt 5; PInt 7]; "text" := PStr "spike";
       "color" := PStr "#00FF00" ]};
    {[ "color" := PStr "#0000FF" ]};
    {[ "start_point" := PTuple [PInt 10; PInt 10];
       "end_point" := PTuple [PInt 100; PInt 10];
       "color" := PStr "#FF0000"; "note" := PStr "baseline" ]} ].

(** A viewer at start-up, before the overlays are loaded. *)
Definition starting : viewer :=
  mk_viewer (Some (black 120 20)) 100 false 0 false (Some (black 120 20))
            (QPoint.make 0 0) false "Note" [] None None saved_dicts.

(** A single red pixel shown at 100 percent with no contrast filter and
    trace enhancement switched on. *)
Definition red_pixel : image := [[(0, 0, 255)]].
Definition red_pixel_traced : viewer :=
  mk_viewer (Some red_pixel) 100 false 0 true None (QPoint.make 0 0)
            false "Note" [] None None [].

(** A 100 x 100 image shown at 10 percent. *)
Definition zoomed_out : viewer :=
  mk_viewer (Some (black 100 100)) 10 false 0 false (Some (black 10 10))
            (QPoint.make 0 0) true "Note" [] None None [].


Definition succeeded {A} (r : result A) : bool :=
  match r with Ok _ => true | Raise _ => false end.

(** Closing [store3] : the records written and the viewer left; and
    loading those records in a later session. *)
Definition saved : result (list (gmap string pyval)) * viewer :=
  closeEvent_overlays store3.
Definition saved_records : list (gmap string pyval) :=
  match saved.1 with Ok l => l | Raise _ => [] end.
Definition reloaded : result unit * viewer :=
  restore_session_overlays later saved_records saved.2.

(* ===================================================================== *)
(** ** Overlay geometry inside the image, drags *)
(* ===================================================================== *)

(** Every point of the geometry of [o] satisfies [P]. *)
Definition geometry_all (P : QPoint.t -> Prop) (o : overlay) : Prop :=
  match o with
  | Note _ _ p _ _ => P p
  | Ruler _ _ s e _ => P s /\ P e
  | ROI _ _ tl br _ => P tl /\ P br
  end.

(** [p] is a pixel of [img]. *)
Definition inside (img : image) (p : QPoint.t) : Prop :=
  (0 <= QPoint.x p < shape1 img) /\ (0 <= QPoint.y p < shape0 img).

Definition entry_inside (img : image) (o : option overlay) : Prop :=
  match o with Some o => geometry_all (inside img) o | None => True end.

(** What handlers may do in a viewer showing [img] whose draft lies inside
    it: append overlays that lie inside it, keep the image and leave a
    draft that lies inside it. *)
Definition commits_inside (img : image) (v v' : viewer) : Prop :=
  original_image v = Some img ->
  entry_inside img (drawing_overlay v) ->
  (exists new, analysis_overlays v' = analysis_overlays v ++ new
               /\ Forall (entry_inside img) new)
  /\ original_image v' = Some img
  /\ entry_inside img (drawing_overlay v').

(** The state after a pointer move to each of the positions [ps] in turn. *)
Definition after_moves (cv : cv2) (ps : list QPoint.t) (v : viewer) : viewer :=
  fold_left (fun s p => (handle_analysis_mouse_move cv p s).2) ps v.

(** A ruler or a region from [p] to [q]. *)
Definition draft_of (ruler : bool) (i : string) (l : loc) (p q : QPoint.t)
    (c : pyval) : overlay :=
  if ruler then Ruler i l p q c else ROI i l p q c.

(** [v'] is [v] in the middle of a drag that started at image point [p]:
    same image, zoom and label position, a pixmap shown, the overlay list
    of [v], one more (empty) dictionary, and a draft from [p]. *)
Definition dragging (v : viewer) (ruler : bool) (i : string) (p : QPoint.t)
    (c : pyval) (v' : viewer) : Prop :=
  original_image v' = original_image v
  /\ zoom_slider v' = zoom_slider v
  /\ label_origin v' = label_origin v
  /\ is_Some (image_label_pixmap v')
  /\ analysis_overlays v' = analysis_overlays v
  /\ dicts v' = dicts v ++ [∅]
  /\ drawing_start_point v' = Some p
  /\ exists q, drawing_overlay v'
               = Some (draft_of ruler i (length (dicts v)) p q c).

(* ===================================================================== *)
(** ** Kinds of persisted records *)
(* ===================================================================== *)

(** The record names a kind [from_dict] builds an overlay for. *)
Definition known_kind (d : gmap string pyval) : Prop :=
  d !! "type" = Some (PStr "Note") \/ d !! "type" = Some (PStr "Ruler")
  \/ d !! "type" = Some (PStr "ROI").

(* ===================================================================== *)
(** ** Properties of rasters *)
(* ===================================================================== *)

(** The three channels of [p] are equal. *)
Definition is_grey (p : pixel) : Prop := p.1.1 = p.1.2 /\ p.1.2 = p.2.

(** [p] is black or white. *)
Definition is_black_or_white (p : pixel) : Prop :=
  p = (0, 0, 0) \/ p = (255, 255, 255).

(** Every pixel of [img] satisfies [P]. *)
Definition all_pixels (P : pixel -> Prop) (img : image) : Prop :=
  Forall (Forall P) img.

(** [int(k / 100)] is 0. *)
Definition scales_to_zero (k : Z) : bool :=
  match scaled_size k 1 with Ok 0 => true | _ => false end.

(** One display pixel before the pixmap converts to image coordinate 0. *)
Definition minus_one_is_accepted (scale_percent : Z) : bool :=
  match image_coord (-1) (zoom_factor_of scale_percent) with
  | Ok 0 => true
  | _ => false
  end.

(* ===================================================================== *)
(** ** Editing and clearing the overlay store *)
(* ===================================================================== *)

(** [overlay.data.get('note', '')]. *)
Definition get_note (l : loc) : M heap pyval :=
  fun h => (Ok (default (PStr "") (default ∅ (h !! l) !! "note")), h).

(** [d.pop(k, None)]. *)
Definition pop_item (l : loc) (k : string) : M heap unit :=
  fun h => (Ok tt, <[l := delete k (default ∅ (h !! l))]> h).

(** The [text] argument of [QInputDialog.getText] must be a [str]. *)
Definition dialog_text (v : pyval) : result string :=
  match v with PStr s => Ok s | _ => Raise TypeError end.

Section Editing.
Variable cv : cv2.

(** [edit_overlay(index, refresh_callback)] : [reply] is what the input
    dialog returns; the callback refreshes a table widget only. *)
Definition edit_overlay (index : Z) (reply : text_reply) : M viewer unit :=
  (v <- get ;;
   if (0 <=? index) && (index <? Z.of_nat (length (analysis_overlays v)))
   then
     match analysis_overlays v !! Z.to_nat index with
     | None => raise IndexError
     | Some None => raise AttributeError
     | Some (Some (Note i d p text c)) =>
         lift (dialog_text text) ;;;
         if reply.2 then
           modify (set_overlays
                     (<[Z.to_nat index := Some (Note i d p (PStr reply.1) c)]>
                        (analysis_overlays v))) ;;;
           update_zoom cv
         else ret tt
     | Some (Some (ROI _ d _ _ _)) =>
         current_note <- on_dicts (get_note d) ;;
         lift (dialog_text current_note) ;;;
         if reply.2 then
           (if bool_decide (reply.1 = "")
            then on_dicts (pop_item d "note")
            else on_dicts (Dict.set_item d "note" (PStr reply.1))) ;;;
           update_zoom cv
         else ret tt
     | Some (Some (Ruler _ d _ _ _)) =>
         current_note <- on_dicts (get_note d) ;;
         lift (dialog_text current_note) ;;;
         if reply.2 then
           on_dicts (Dict.set_item d "note" (PStr reply.1)) ;;;
           update_zoom cv
         else ret tt
     end
   else ret tt)%py.

(** [clear_all_overlays()] : [yes] is the answer to the question box. *)
Definition clear_all_overlays (yes : bool) : M viewer unit :=
  (if yes then modify (set_overlays []) ;;; update_zoom cv else ret tt)%py.
End Editing.


(** The text an edit dialog for [o] is opened with. *)
Definition edit_prompt (h : heap) (o : overlay) : pyval :=
  match o with
  | Note _ _ _ text _ => text
  | Ruler _ d _ _ _ | ROI _ d _ _ _ =>
      default (PStr "") (default ∅ (h !! d) !! "note")
  end.

(** What an accepted edit with reply [text] makes of [o] and of its
    dictionary [m]. *)
Definition edited (text : string) (o : overlay) : overlay :=
  match o with
  | Note i d p _ c => Note i d p (PStr text) c
  | o => o
  end.
Definition edited_data (text : string) (o : overlay) (m : gmap string pyval)
    : gmap string pyval :=
  match o with
  | Note _ _ _ _ _ => m
  | Ruler _ _ _ _ _ => <["note" := PStr text]> m
  | ROI _ _ _ _ _ =>
      if bool_decide (text = "") then delete "note" m
      else <["note" := PStr text]> m
  end.

(** The viewer an accepted edit of [o] at [index] hands to [update_zoom]. *)
Definition edit_applied (v : viewer) (index : Z) (text : string) (o : overlay)
    : viewer :=
  set_dicts (<[overlay_data o :=
                 edited_data text o (default ∅ (dicts v !! overlay_data o))]>
               (dicts v))
    (set_overlays (<[Z.to_nat index := Some (edited text o)]>
                     (analysis_overlays v)) v).

(* ===================================================================== *)
(** ** Keyboard and wheel input, the contrast mode *)
(* ===================================================================== *)

Definition set_zoom_slider (z : Z) (v : viewer) : viewer :=
  mk_viewer (original_image v) z (enhanced_mode_checkbox v)
    (contrast_mode v) (trace_enhancement_active v) (image_label_pixmap v)
    (label_origin v) (analysis_mode_active v) (current_analysis_tool v)
    (analysis_overlays v) (drawing_overlay v) (drawing_start_point v)
    (dicts v).

Definition set_contrast_mode (m : Z) (v : viewer) : viewer :=
  mk_viewer (original_image v) (zoom_slider v) (enhanced_mode_checkbox v)
    m (trace_enhancement_active v) (image_label_pixmap v)
    (label_origin v) (analysis_mode_active v) (current_analysis_tool v)
    (analysis_overlays v) (drawing_overlay v) (drawing_start_point v)
    (dicts v).

(** [l[i]] on a Python list: a negative index counts from the end. *)
Definition list_item {A} (l : list A) (i : Z) : result A :=
  let j := if i <? 0 then i + Z.of_nat (length l) else i in
  if j <? 0 then Raise IndexError
  else match l !! Z.to_nat j with
       | Some a => Ok a
       | None => Raise IndexError
       end.

Definition contrast_names : list string :=
  [ "Normal"; "Enhanced Color"; "High-Con Color"; "Smart Invert";
    "Inverted Gray"; "HC Gray"; "Inv HC Gray"; "Binary" ]%string.

(** [f"Contrast: {contrast_names[mode]}"], the text of the contrast label. *)
Definition contrast_label_text (mode : Z) : result string :=
  result_bind (list_item contrast_names mode)
    (fun name => Ok ("Contrast: " +:+ name)).

(** The keys of [keyPressEvent] that change the zoom or the contrast. *)
Inductive key :=
| Key_C | Key_Plus | Key_Equal | Key_Minus | Key_Z | Key_X | Key_R.

(** The value a [QSlider] with range 10..400 takes for [setValue(value)]. *)
Definition slider_bound (value : Z) : Z := Z.max 10 (Z.min 400 value).

Section Keys.
Variable cv : cv2.

(** [self.zoom_slider.setValue(value)] : the slider bounds the value and,
    when it changed, emits [valueChanged], which is connected to
    [update_zoom]. *)
Definition zoom_slider_setValue (value : Z) : M viewer unit :=
  (v <- get ;;
   let value := slider_bound value in
   if value =? zoom_slider v then ret tt
   else modify (set_zoom_slider value) ;;; update_zoom cv)%py.

(** [keyPressEvent(event)] for the keys of [key]. *)
Definition keyPressEvent (live_capture_active : bool) (k : key)
    : M viewer unit :=
  (v <- get ;;
   match k with
   | Key_C =>
       let mode := (contrast_mode v + 1) mod 8 in
       modify (set_contrast_mode mode) ;;;
       lift (contrast_label_text mode) ;;;
       if live_capture_active then ret tt else update_zoom cv
   | Key_Plus | Key_Equal | Key_Z => zoom_slider_setValue (zoom_slider v + 10)
   | Key_Minus | Key_X => zoom_slider_setValue (zoom_slider v - 10)
   | Key_R => zoom_slider_setValue 100
   end)%py.

(** [wheelEvent(event)] : [ctrl] says that Control is the keyboard
    modifier, [delta] is [event.angleDelta().y()]. *)
Definition wheelEvent (ctrl : bool) (delta : Z) : M viewer unit :=
  (v <- get ;;
   if ctrl then
     if 0 <? delta then zoom_slider_setValue (zoom_slider v + 10)
     else if delta <? 0 then zoom_slider_setValue (zoom_slider v - 10)
     else ret tt
   else ret tt)%py.
End Keys.

(** The contrast statements of [restore_session] : [stored] is
    [settings.value("contrast_mode", 0, type=int)]; the result is the text
    put on the contrast label. *)
Definition restore_contrast (stored : Z) : M viewer string :=
  (modify (set_contrast_mode stored) ;;;
   (if Z.of_nat (length contrast_names) <=? stored
    then modify (set_contrast_mode 0) else ret tt) ;;;
   v <- get ;;
   lift (contrast_label_text (contrast_mode v)))%py.

(** Keyboard and wheel input. *)
Inductive view_input :=
| KeyPress (live_capture_active : bool) (k : key)
| Wheel (ctrl : bool) (delta : Z).

Definition view_dispatch (cv : cv2) (i : view_input) : M viewer unit :=
  match i with
  | KeyPress live k => keyPressEvent cv live k
  | Wheel ctrl delta => wheelEvent cv ctrl delta
  end.

(** The viewer after the inputs [l], whatever each handler returned. *)
Definition after_inputs (cv : cv2) (l : list view_input) (v : viewer)
    : viewer :=
  fold_left (fun s i => (view_dispatch cv i s).2) l v.

Definition is_contrast_key (i : view_input) : bool :=
  match i with KeyPress _ Key_C => true | _ => false end.

(** How often the contrast key occurs in [l]. *)
Definition contrast_presses (l : list view_input) : Z :=
  Z.of_nat (length (List.filter is_contrast_key l)).

(** Same viewer up to the zoom, the contrast mode and the pixmap. *)
Definition same_document (v v' : viewer) : Prop :=
  original_image v' = original_image v
  /\ enhanced_mode_checkbox v' = enhanced_mode_checkbox v
  /\ trace_enhancement_active v' = trace_enhancement_active v
  /\ label_origin v' = label_origin v
  /\ analysis_mode_active v' = analysis_mode_active v
  /\ current_analysis_tool v' = current_analysis_tool v
  /\ analysis_overlays v' = analysis_overlays v
  /\ drawing_overlay v' = drawing_overlay v
  /\ drawing_start_point v' = drawing_start_point v
  /\ dicts v' = dicts v.

(* ===================================================================== *)
(** ** The measurement grid *)
(* ===================================================================== *)

(** [range(a, b)]. *)
Definition py_range (a b : Z) : list Z :=
  map (fun i => a + Z.of_nat i) (seq 0 (Z.to_nat (b - a))).

(** [a // b] on Python integers. *)
Definition floordiv (a b : Z) : result Z :=
  if b =? 0 then Raise ZeroDivisionError else Ok (a / b).

(** The grid lines of [MeasurementGridWidget.paintEvent] along one axis,
    [extent] being the height (horizontal lines) or the width (vertical
    lines): [for i in range(1, extent // pixels_per_unit)] draws a line at
    [i * pixels_per_unit]. *)
Definition grid_lines (extent pixels_per_unit : Z) : result (list Z) :=
  result_bind (floordiv extent pixels_per_unit) (fun n =>
  Ok (map (fun i => i * pixels_per_unit) (py_range 1 n))).

(* ===================================================================== *)
(** ** Professional annotations and their persistence *)
(* ===================================================================== *)

(** JSON values, as [json.dumps] takes them and [json.loads] returns them.
    The text in between is not modelled: what [closeEvent] hands to
    [json.dumps] is what [restore_session] gets from [json.loads]. *)
Inductive json :=
| JNull
| JBool (b : bool)
| JInt (n : Z)
| JFloat (f : float)
| JStr (s : string)
| JArr (items : list json)
| JObj (fields : gmap string json).

(** [bool(j)]. *)
Definition json_truthy (j : json) : bool :=
  match j with
  | JNull => false
  | JBool b => b
  | JInt n => negb (n =? 0)
  | JFloat f => negb (PrimFloat.eqb f 0%float)
  | JStr s => negb (String.eqb s "")
  | JArr items => match items with [] => false | _ => true end
  | JObj fields => negb (bool_decide (dom fields = (∅ : gset string)))
  end.

(** [j[k]] for a string key [k]. *)
Definition json_item (j : json) (k : string) : result json :=
  match j with
  | JObj fields =>
      match fields !! k with Some a => Ok a | None => Raise KeyError end
  | _ => Raise TypeError
  end.

(** A JSON value as an argument of [QPoint(x, y)]. *)
Definition json_int_arg (j : json) : pyval :=
  match j with
  | JInt n => PInt n
  | JBool b => PInt (if b then 1 else 0)
  | _ => PNone
  end.

Record annotation := mk_annotation {
  a_type : json;
  a_position : option QPoint.t;
  a_data : json;
  a_id : json
}.

Module Annotation.
(** [Annotation(annotation_type, position, data)] : [data or {}] and a
    fresh timestamp id. *)
Definition init (now : datetime) (annotation_type : json)
    (position : option QPoint.t) (data : json) : annotation :=
  mk_annotation annotation_type position
                (if json_truthy data then data else JObj ∅)
                (JStr (fresh_id now)).
End Annotation.

Definition set_id (i : json) (a : annotation) : annotation :=
  mk_annotation (a_type a) (a_position a) (a_data a) i.

(** [if annotation.position:] *)
Definition position_truthy (p : option QPoint.t) : bool :=
  match p with Some p => QPoint.truthy p | None => false end.

(** The record [closeEvent] writes for one annotation. *)
Definition annotation_record (a : annotation) : gmap string json :=
  let ann_data : gmap string json :=
    {[ "type" := a_type a; "id" := a_id a; "data" := a_data a ]} in
  match a_position a with
  | Some p =>
      if QPoint.truthy p
      then <["position" := JObj {[ "x" := JInt (QPoint.x p);
                                   "y" := JInt (QPoint.y p) ]}]> ann_data
      else ann_data
  | None => ann_data
  end.

(** [annotations_data] of [closeEvent], the argument of [json.dumps]. *)
Definition save_annotations (l : list annotation) : list (gmap string json) :=
  map annotation_record l.

(** The body of the loop of [restore_session] over the records
    [json.loads] returned. *)
Definition load_annotation (now : datetime) (ann_data : gmap string json)
    : result annotation :=
  result_bind
    (match ann_data !! "position" with
     | Some pos_data =>
         result_bind (json_item pos_data "x") (fun x =>
         result_bind (json_item pos_data "y") (fun y =>
         result_bind (QPoint.new (json_int_arg x) (json_int_arg y))
           (fun p => Ok (Some p))))
     | None => Ok None
     end) (fun position =>
  result_bind (json_item (JObj ann_data) "type") (fun annotation_type =>
  result_bind (json_item (JObj ann_data) "data") (fun data =>
  let a := Annotation.init now annotation_type position data in
  Ok (set_id (default (a_id a) (ann_data !! "id")) a)))).

Fixpoint load_annotations (clock : nat -> datetime) (i : nat)
    (annotations_data : list (gmap string json))
    : M (list annotation) unit :=
  match annotations_data with
  | [] => ret tt
  | ann_data :: rest =>
      (a <- lift (load_annotation (clock i) ann_data) ;;
       modify (fun l => l ++ [a]) ;;;
       load_annotations clock (S i) rest)%py
  end.

(** The annotation part of [restore_session], on the parsed records. *)
Definition restore_annotations (clock : nat -> datetime)
    (annotations_data : list (gmap string json))
    : M (list annotation) unit :=
  (modify (fun _ => []) ;;;
   load_annotations clock 0 annotations_data)%py.

(** What a saved annotation comes back as. *)
Definition reloaded_annotation (a : annotation) : annotation :=
  mk_annotation (a_type a)
    (if position_truthy (a_position a) then a_position a else None)
    (if json_truthy (a_data a) then a_data a else JObj ∅)
    (a_id a).

Definition position_in_range (a : annotation) : Prop :=
  match a_position a with Some p => in_int_range p | None => True end.

(* ===================================================================== *)
(** ** More sample data *)
(* ===================================================================== *)

(** [store3] with the region tool armed. *)
Definition store3_roi : viewer := set_analysis_mode true "ROI" store3.

(** [store3_ruler] after a press at (10, 10): a ruler is being drawn. *)
Definition mid_drag : viewer :=
  (handle_analysis_mouse_press cv2_sample t0 (QPoint.make 10 10) no_reply red
     store3_ruler).2.

(** [store3] after a record of an unknown kind was loaded. *)
Definition store_with_None : viewer :=
  set_overlays [Some note0; None; Some roi0] store3.

(** A 5 x 5 image shown at 10 percent. *)
Definition tiny : viewer := showing (black 5 5) 10 "Note".

(** Two annotations: a measurement at the origin and an event marker. *)
Definition annotations2 : list annotation :=
  [ mk_annotation (JStr "Amplitude") (Some (QPoint.make 0 0))
      (JObj {[ "value" := JStr "50"; "unit" := JStr "uV" ]})
      (JStr "20240115_093000_123");
    mk_annotation (JStr "Seizure") (Some (QPoint.make 40 12)) (JObj ∅)
      (JStr "20240115_093110_005") ].

(* ===================================================================== *)
(** * Theorems *)
(* ===================================================================== *)

(** ** The monad *)

Ltac unfold_monad :=
  unfold bind, get, ret, raise, lift, modify, on_dicts, append_overlay in *.

Lemma bind_ok {S A B} (m : M S A) (k : A -> M S B) s a s' :
  m s = (Ok a, s') -> bind m k s = k a s'.
Proof. intros H. unfold bind. now rewrite H. Qed.

Lemma bind_raise {S A B} (m : M S A) (k : A -> M S B) s e s' :
  m s = (Raise e, s') -> bind m k s = (Raise e, s').
Proof. intros H. unfold bind. now rewrite H. Qed.

(** ** Out-of-bounds pointer events *)

Lemma get_image_coordinates_outside v mouse_pos img ix iy :
  original_image v = Some img ->
  image_xy (QPoint.sub mouse_pos (label_origin v))
           (zoom_factor_of (zoom_slider v)) = Ok (ix, iy) ->
  ~ (0 <= ix < shape1 img /\ 0 <= iy < shape0 img) ->
  get_image_coordinates v mouse_pos = Ok None.
Proof.
  intros Himg Hxy Hout. unfold get_image_coordinates.
  destruct (image_label_pixmap v); [|reflexivity].
  rewrite Himg, Hxy. cbn.
  destruct ((0 <=? ix) && (ix <? shape1 img)
            && (0 <=? iy) && (iy <? shape0 img)) eqn:E; [|reflexivity].
  exfalso. apply Hout.
  repeat (apply andb_prop in E as [E ?]). lia.
Qed.

(** C5. A pointer position whose computed image point lies outside
    [0, width) x [0, height) converts to [None] without an exception, and a
    press, a move or a release there returns normally and leaves the whole
    viewer state (tool, draft, start point, overlay list, dictionaries) as
    it was. *)
Theorem out_of_bounds_pointer_is_ignored
    (cv : cv2) (v : viewer) (mouse_pos : QPoint.t) (img : image) (ix iy : Z)
    (now : datetime) (text note : text_reply) (color : QColor.t) :
  original_image v = Some img ->
  image_xy (QPoint.sub mouse_pos (label_origin v))
           (zoom_factor_of (zoom_slider v)) = Ok (ix, iy) ->
  ~ (0 <= ix < shape1 img /\ 0 <= iy < shape0 img) ->
  get_image_coordinates v mouse_pos = Ok None
  /\ handle_analysis_mouse_press cv now mouse_pos text color v = (Ok tt, v)
  /\ handle_analysis_mouse_move cv mouse_pos v = (Ok tt, v)
  /\ handle_analysis_mouse_release cv mouse_pos note v = (Ok tt, v).
Proof.
  intros Himg Hxy Hout.
  pose proof (get_image_coordinates_outside _ _ _ _ _ Himg Hxy Hout) as Hnone.
  split; [exact Hnone|].
  unfold handle_analysis_mouse_press, handle_analysis_mouse_move,
    handle_analysis_mouse_release.
  unfold_monad. rewrite Hnone.
  repeat split. destruct (drawing_in_progress v); reflexivity.
Qed.

Lemma out_of_bounds_pointer_is_ignored_witness :
  let v := showing (black 10 10) 100 "Ruler" in
  let p := QPoint.make 50 3 in
  get_image_coordinates v p = Ok None
  /\ handle_analysis_mouse_press cv2_sample t0 p no_reply red v = (Ok tt, v)
  /\ handle_analysis_mouse_move cv2_sample p v = (Ok tt, v)
  /\ handle_analysis_mouse_release cv2_sample p no_reply v = (Ok tt, v).
Proof.
  apply (out_of_bounds_pointer_is_ignored cv2_sample
           (showing (black 10 10) 100 "Ruler") (QPoint.make 50 3)
           (black 10 10) 50 3).
  - reflexivity.
  - vm_compute. reflexivity.
  - vm_compute. intros [[_ H] _]. discriminate H.
Defined.

(** ** Deleting an overlay *)

(** C7 (as the code has it). [delete_overlay] with an index outside
    [0, len) is guarded: it raises nothing, returns normally and leaves the
    viewer, its overlay list included, unchanged. *)
Theorem delete_out_of_range_is_silent
    (cv : cv2) (v : viewer) (index : Z) :
  ~ (0 <= index < Z.of_nat (length (analysis_overlays v))) ->
  delete_overlay cv index v = (Ok tt, v).
Proof.
  intros Hout. unfold delete_overlay. unfold_monad.
  destruct ((0 <=? index) && (index <? Z.of_nat (length (analysis_overlays v))))
    eqn:E; [|reflexivity].
  exfalso. apply Hout. apply andb_prop in E as [? ?]. lia.
Qed.

Lemma delete_out_of_range_is_silent_witness :
  delete_overlay cv2_sample 5 store3 = (Ok tt, store3).
Proof.
  apply (delete_out_of_range_is_silent cv2_sample store3 5).
  vm_compute. intros [_ H]. discriminate H.
Defined.

(** C7 as stated fails: deleting index 5 of a list of 3 overlays does not
    end in an index error. *)
Lemma delete_index_5_of_3_raises_nothing :
  ~ ((delete_overlay cv2_sample 5 store3).1 = Raise IndexError
     /\ analysis_overlays (delete_overlay cv2_sample 5 store3).2
        = analysis_overlays store3).
Proof. vm_compute. intros [H _]. discriminate H. Qed.

(** ** What a repaint touches *)

Lemma set_pixmap_same v : set_pixmap (image_label_pixmap v) v = v.
Proof. now destruct v. Qed.

(** [update_zoom] writes the pixmap and nothing else, and never clears it. *)
Lemma update_zoom_frame cv v :
  exists p, (update_zoom cv v).2 = set_pixmap p v
            /\ (is_Some (image_label_pixmap v) -> is_Some p).
Proof.
  unfold update_zoom. unfold_monad.
  destruct (original_image v) as [img|];
    [|exists (image_label_pixmap v); now rewrite set_pixmap_same].
  destruct (zoom_raster cv v img) as [r|e]; cbn;
    [|exists (image_label_pixmap v); now rewrite set_pixmap_same].
  destruct (draw_all _ _); cbn;
    [|exists (image_label_pixmap v); now rewrite set_pixmap_same].
  destruct (drawing_overlay v) as [o|]; cbn.
  - destruct (draw o _); cbn;
      [exists (Some r); split; [reflexivity|intros; eexists; reflexivity]
      |exists (image_label_pixmap v); now rewrite set_pixmap_same].
  - exists (Some r). split; [reflexivity|intros; eexists; reflexivity].
Qed.

Lemma get_image_coordinates_set_pixmap v p pos :
  is_Some (image_label_pixmap v) -> is_Some p ->
  get_image_coordinates (set_pixmap p v) pos = get_image_coordinates v pos.
Proof.
  intros [a Ha] [b ->]. unfold get_image_coordinates. cbn. now rewrite Ha.
Qed.


Lemma update_zoom_overlays cv v :
  analysis_overlays (update_zoom cv v).2 = analysis_overlays v.
Proof. destruct (update_zoom_frame cv v) as (p & -> & _). reflexivity. Qed.

Lemma update_zoom_drawing cv v :
  drawing_overlay (update_zoom cv v).2 = drawing_overlay v.
Proof. destruct (update_zoom_frame cv v) as (p & -> & _). reflexivity. Qed.

Lemma update_zoom_dicts cv v : dicts (update_zoom cv v).2 = dicts v.
Proof. destruct (update_zoom_frame cv v) as (p & -> & _). reflexivity. Qed.

#[local] Opaque update_zoom.


(** ** The ruler scenario *)

Lemma get_image_coordinates_some_pixmap v pos p :
  get_image_coordinates v pos = Ok (Some p) -> is_Some (image_label_pixmap v).
Proof.
  unfold get_image_coordinates. destruct (image_label_pixmap v); [eauto|discriminate].
Qed.

(** The conversion reads the image, the zoom, the label position and whether a pixmap is shown. *)
Lemma get_image_coordinates_view v v' pos :
  original_image v' = original_image v ->
  zoom_slider v' = zoom_slider v ->
  label_origin v' = label_origin v ->
  is_Some (image_label_pixmap v) -> is_Some (image_label_pixmap v') ->
  get_image_coordinates v' pos = get_image_coordinates v pos.
Proof.
  intros Hi Hz Ho [a Ha] [b Hb]. unfold get_image_coordinates.
  now rewrite Ha, Hb, Hi, Hz, Ho.
Qed.



(** ** Colours of committed overlays *)

Ltac fixed_colors_leaf :=
  cbn; rewrite ?update_zoom_overlays, ?update_zoom_drawing; cbn;
  split;
  [ first [ exists []; rewrite app_nil_r; split; [reflexivity|constructor]
          | eexists [_]; split; [reflexivity|repeat constructor; assumption] ]
  | first [ assumption | exact I | reflexivity ] ].

Lemma press_commits cv now pos text color v :
  commits_fixed_colors v (handle_analysis_mouse_press cv now pos text color v).2.
Proof.
  unfold commits_fixed_colors, handle_analysis_mouse_press. unfold_monad.
  intros Hd.
  destruct (get_image_coordinates v pos) as [[p|]|]; cbn;
    repeat case_bool_decide; repeat case_match; fixed_colors_leaf.
Qed.

Lemma move_commits cv pos v :
  commits_fixed_colors v (handle_analysis_mouse_move cv pos v).2.
Proof.
  unfold commits_fixed_colors, handle_analysis_mouse_move. unfold_monad.
  intros Hd.
  destruct (get_image_coordinates v pos) as [[p|]|]; cbn;
    destruct (drawing_in_progress v); cbn;
    rewrite ?update_zoom_overlays, ?update_zoom_drawing; cbn;
    try fixed_colors_leaf.
  destruct (drawing_overlay v) as [[]|]; fixed_colors_leaf.
Qed.

Lemma release_commits cv pos note v :
  commits_fixed_colors v (handle_analysis_mouse_release cv pos note v).2.
Proof.
  unfold commits_fixed_colors, handle_analysis_mouse_release. unfold_monad.
  intros Hd.
  destruct (drawing_in_progress v); [|fixed_colors_leaf].
  destruct (get_image_coordinates v pos) as [[p|]|]; cbn; try fixed_colors_leaf.
  destruct (drawing_overlay v) as [[]|] eqn:Ed; cbn; destruct (accepted note);
    cbn; rewrite ?update_zoom_overlays, ?update_zoom_drawing; cbn;
    fixed_colors_leaf.
Qed.

Lemma commits_refl v : commits_fixed_colors v v.
Proof. intros Hd. split; [exists []; now rewrite app_nil_r|assumption]. Qed.

Lemma commits_trans v1 v2 v3 :
  commits_fixed_colors v1 v2 -> commits_fixed_colors v2 v3 ->
  commits_fixed_colors v1 v3.
Proof.
  intros H12 H23 Hd. destruct (H12 Hd) as [(n1 & E1 & F1) Hd2].
  destruct (H23 Hd2) as [(n2 & E2 & F2) Hd3]. split; [|assumption].
  exists (n1 ++ n2). rewrite E2, E1, app_assoc. split; [reflexivity|].
  now apply Forall_app.
Qed.

Lemma dispatch_commits cv e v : commits_fixed_colors v (dispatch cv e v).2.
Proof.
  destruct e as [b now pos text color|pos|b pos note|checked combo]; cbn.
  - unfold mousePressEvent. unfold_monad.
    destruct b; try apply commits_refl.
    + destruct (analysis_mode_active v); [apply press_commits|apply commits_refl].
    + destruct (_ && _); [|apply commits_refl]. intros Hd. fixed_colors_leaf.
  - unfold mouseMoveEvent. unfold_monad.
    destruct (analysis_mode_active v); [apply move_commits|apply commits_refl].
  - unfold mouseReleaseEvent. unfold_monad.
    destruct b; try apply commits_refl.
    destruct (analysis_mode_active v); [apply release_commits|apply commits_refl].
  - unfold toggle_analysis_mode. unfold_monad.
    destruct checked; intros Hd; fixed_colors_leaf.
Qed.

Lemma run_commits cv evs v : commits_fixed_colors v (run cv evs v).2.
Proof.
  revert v. induction evs as [|e evs IH]; intros v; [apply commits_refl|].
  cbn. unfold bind. pose proof (dispatch_commits cv e v) as He.
  destruct (dispatch cv e v) as [[[]|err] v1]; cbn in *; [|exact He].
  eapply commits_trans; [exact He|apply IH].
Qed.


(** C10. Whatever the events of an editing session and the replies of
    its dialogs, starting without a draft: the overlay list only grows at
    its end, every note added has the colour "#00FF00" and every region
    "#0000FF". The colour of a ruler is the one thing taken from the user:
    the draft a press creates with the ruler tool carries the name of the
    colour the dialog returned. *)
Theorem committed_colors_are_fixed
    (cv : cv2) (evs : list event) (v : viewer) :
  drawing_overlay v = None ->
  (exists new,
      analysis_overlays (run cv evs v).2 = analysis_overlays v ++ new
      /\ Forall has_fixed_color new)
  /\ (forall now pos p text color,
         current_analysis_tool v = "Ruler" ->
         get_image_coordinates v pos = Ok (Some p) ->
         QColor.isValid color = true ->
         drawing_overlay
           (handle_analysis_mouse_press cv now pos text color v).2
         = Some (Ruler (fresh_id now) (length (dicts v)) p p
                       (PStr (QColor.name color)))).
Proof.
  intros Hnone. split.
  - apply (run_commits cv evs v). now rewrite Hnone.
  - intros now pos p text color Htool G Hvalid.
    unfold handle_analysis_mouse_press. unfold_monad.
    now rewrite G, Htool, Hvalid.
Qed.

Lemma committed_colors_are_fixed_witness :
  (exists new,
      analysis_overlays
        (run cv2_sample session_note_roi (showing (black 200 200) 100 "Note")).2
      = [] ++ new
      /\ Forall has_fixed_color new)
  /\ (forall now pos p text color,
         current_analysis_tool (showing (black 200 200) 100 "Note") = "Ruler" ->
         get_image_coordinates (showing (black 200 200) 100 "Note") pos
         = Ok (Some p) ->
         QColor.isValid color = true ->
         drawing_overlay
           (handle_analysis_mouse_press cv2_sample now pos text color
              (showing (black 200 200) 100 "Note")).2
         = Some (Ruler (fresh_id now) 0%nat p p (PStr (QColor.name color)))).
Proof.
  apply (committed_colors_are_fixed cv2_sample session_note_roi
           (showing (black 200 200) 100 "Note")).
  reflexivity.
Defined.

#[local] Transparent update_zoom.

(** ** Serialization writes into the overlay *)

Lemma heap_update_lookup (h : heap) (l : loc) (m m' : gmap string pyval) :
  h !! l = Some m -> <[l := m']> h !! l = Some m'.
Proof.
  intros H. apply list_lookup_insert_eq. now apply lookup_lt_Some in H.
Qed.

(** C9. [to_dict] is not free of side effects. For an overlay of any of
    the three kinds whose data dictionary [m] lives in the heap: the
    record returned holds, under "data", a reference to that very
    dictionary; after the call the dictionary has the geometry and colour
    entries of its kind (and for a ruler the entry "note"), every other
    key is as before, no other dictionary is touched, and a dictionary
    that had no "color" entry has been changed. *)
Theorem to_dict_mutates_own_data
    (o : overlay) (h : heap) (m : gmap string pyval) :
  h !! overlay_data o = Some m ->
  exists d h' m',
    to_dict o h = (Ok d, h')
    /\ d !! "data" = Some (PRef (overlay_data o))
    /\ h' !! overlay_data o = Some m'
    /\ Forall (fun kv => m' !! kv.1 = Some kv.2) (written_entries o m)
    /\ (forall k, k ∉ (written_entries o m).*1 -> m' !! k = m !! k)
    /\ (forall l, l <> overlay_data o -> h' !! l = h !! l)
    /\ (m !! "color" = None -> h' <> h).
Proof.
  intros Hm.
  destruct o as [i l p t c|i l s e c|i l tl br c]; cbn in Hm |- *;
    unfold NoteOverlay.to_dict, RulerOverlay.to_dict,
      RegionOfInterestOverlay.to_dict, Dict.update, Dict.get_item;
    unfold_monad; rewrite Hm; cbn;
    (eexists _, _, _; split; [reflexivity|]);
    (split; [reflexivity|]);
    (split; [now apply (heap_update_lookup _ _ m)|]);
    (split; [repeat (first [apply Forall_nil_2 | apply Forall_cons_2]); cbn;
             apply lookup_union_Some_l; by simplify_map_eq|]);
    (split; [intros k Hk; apply lookup_union_r;
             rewrite !not_elem_of_cons in Hk; destruct_and!;
             by simplify_map_eq|]);
    (split; [intros l0 Hl0; now apply list_lookup_insert_ne|]).
  all: intros Hc Heq;
    match type of Heq with <[_ := ?m']> _ = _ =>
      pose proof (heap_update_lookup h l m m' Hm) as Hl;
      assert (Hc' : m' !! "color" = Some c)
        by (apply lookup_union_Some_l; by simplify_map_eq)
    end;
    rewrite Heq, Hm in Hl; injection Hl as Hl;
    rewrite <- Hl, Hc in Hc'; discriminate Hc'.
Qed.

Lemma to_dict_mutates_own_data_witness :
  exists d h' m',
    to_dict note0 [∅] = (Ok d, h')
    /\ d !! "data" = Some (PRef (overlay_data note0))
    /\ h' !! overlay_data note0 = Some m'
    /\ Forall (fun kv => m' !! kv.1 = Some kv.2) (written_entries note0 ∅)
    /\ (forall k, k ∉ (written_entries note0 ∅).*1 ->
                  m' !! k = (∅ : gmap string pyval) !! k)
    /\ (forall l, l <> overlay_data note0 ->
                  h' !! l = ([∅] : heap) !! l)
    /\ ((∅ : gmap string pyval) !! "color" = None -> h' <> [∅]).
Proof.
  apply (to_dict_mutates_own_data note0 [∅] ∅). reflexivity.
Defined.

(** ** The persistence round trip *)

Lemma in_int_range_check (p : QPoint.t) :
  in_int_range p ->
  (QPoint.int_min <=? QPoint.x p) && (QPoint.x p <=? QPoint.int_max)
  && (QPoint.int_min <=? QPoint.y p) && (QPoint.y p <=? QPoint.int_max) = true.
Proof.
  intros [[? ?] [? ?]]. rewrite !andb_true_iff, !Z.leb_le. lia.
Qed.

Lemma to_dict_base_lookups (o : overlay) :
  AnalysisOverlay.to_dict o !! "id" = Some (PStr (overlay_id o))
  /\ AnalysisOverlay.to_dict o !! "type" = Some (PStr (overlay_type o))
  /\ AnalysisOverlay.to_dict o !! "data" = Some (PRef (overlay_data o)).
Proof. unfold AnalysisOverlay.to_dict. repeat split; by simplify_map_eq. Qed.

#[local] Opaque AnalysisOverlay.to_dict.

Ltac written_lookup :=
  match goal with
  | |- context [ (?u ∪ ?m) !! ?k ] =>
      let v := fresh "v" in let H := fresh "H" in
      evar (v : pyval);
      assert (H : (u ∪ m) !! k = Some v)
        by (apply lookup_union_Some_l; subst v; by simplify_map_eq);
      subst v; rewrite H; clear H
  end.

(** X1. For every overlay with an allocated dictionary and geometry in the
    range of a C int, to_dict succeeds and keeps the id in the record, and
    from_dict of that record returns the same overlay, same dictionary,
    geometry, text and colour, with the id replaced by a fresh one taken
    from the clock. *)
Lemma from_dict_to_dict (now : datetime) (o : overlay) (h : heap)
    (m : gmap string pyval) :
  h !! overlay_data o = Some m -> geometry_in_range o ->
  exists d h',
    to_dict o h = (Ok d, h')
    /\ d !! "id" = Some (PStr (overlay_id o))
    /\ from_dict now d h' = (Ok (Some (with_id (fresh_id now) o)), h').
Proof.
  intros Hm Hgeo.
  destruct (to_dict_base_lookups o) as (Hid & Hty & Hdata).
  destruct o as [i l p t c|i l s e c|i l tl br c]; cbn in Hm, Hgeo, Hid, Hty, Hdata |- *;
    unfold NoteOverlay.to_dict, RulerOverlay.to_dict,
      RegionOfInterestOverlay.to_dict, Dict.update, Dict.get_item;
    unfold_monad; rewrite Hm; cbn;
    (eexists _, _; split; [reflexivity|]);
    (split; [assumption|]);
    unfold from_dict; rewrite Hty; cbn;
    unfold NoteOverlay.from_dict, NoteOverlay.new,
      RulerOverlay.from_dict, RulerOverlay.new,
      RegionOfInterestOverlay.from_dict, RegionOfInterestOverlay.new,
      AnalysisOverlay.init, record_data, Dict.get_item;
    unfold_monad; rewrite Hdata; cbn;
    rewrite (heap_update_lookup _ _ m) by assumption; cbn;
    repeat written_lookup; cbn.
  - rewrite in_int_range_check by assumption. now destruct p.
  - destruct Hgeo. rewrite !in_int_range_check by assumption.
    now destruct s, e.
  - destruct Hgeo. rewrite !in_int_range_check by assumption.
    now destruct tl, br.
Qed.

#[local] Transparent AnalysisOverlay.to_dict.

(** C2 (what the code does at a store of one overlay of each kind).
    Saving [store3] and loading the records in a later session succeeds
    and restores type, geometry, text, colour and data of each overlay, and
    the records do carry the original ids; but [from_dict] never reads
    them: each loaded overlay has the id its constructor drew from the
    clock at load time, so the overlays differ from the originals. *)
Theorem roundtrip_regenerates_ids :
  succeeded saved.1 = true
  /\ map (fun d : gmap string pyval => d !! "id") saved_records
     = [Some (PStr (overlay_id note0)); Some (PStr (overlay_id ruler0));
        Some (PStr (overlay_id roi0))]
  /\ reloaded.1 = Ok tt
  /\ analysis_overlays reloaded.2
     = [Some (with_id (fresh_id (later 0)) note0);
        Some (with_id (fresh_id (later 1)) ruler0);
        Some (with_id (fresh_id (later 2)) roi0)]
  /\ map (option_map overlay_id) (analysis_overlays reloaded.2)
     = [Some "20240201_080000_250"; Some "20240201_080001_250";
        Some "20240201_080002_250"]
  /\ map (option_map overlay_id) (analysis_overlays store3)
     = [Some "20240115_093000_123"; Some "20240115_093110_005";
        Some "20240115_093220_999"]
  /\ analysis_overlays reloaded.2 <> analysis_overlays store3.
Proof.
  split; [vm_compute; reflexivity|].
  split; [vm_compute; reflexivity|].
  split; [vm_compute; reflexivity|].
  split; [vm_compute; reflexivity|].
  split; [vm_compute; reflexivity|].
  split; [vm_compute; reflexivity|].
  vm_compute. discriminate.
Qed.

(** ** Loading malformed records *)

(** C3 (what the code does). Loading a note, a record of kind "Unknown"
    and a ruler ends without an exception, but the list then has three
    entries, the second being [None], and the next repaint of a viewer
    with an image raises [AttributeError] on it. Loading a record whose
    dictionary lacks its geometry raises [TypeError] out of the loop: the
    records after it are not loaded. *)
Theorem unknown_kind_is_loaded_as_None (cv : cv2) :
  let r := restore_session_overlays later [rec_note; rec_unknown; rec_ruler]
                                     starting in
  let r' := restore_session_overlays later
              [rec_note; rec_no_geometry; rec_ruler] starting in
  r.1 = Ok tt
  /\ analysis_overlays r.2
     = [ Some (Note (fresh_id (later 0)) 0%nat (QPoint.make 5 7)
                    (PStr "spike") (PStr "#00FF00"));
         None;
         Some (Ruler (fresh_id (later 2)) 2%nat (QPoint.make 10 10)
                     (QPoint.make 100 10) (PStr "#FF0000")) ]
  /\ length (analysis_overlays r.2) = 3%nat
  /\ (update_zoom cv r.2).1 = Raise AttributeError
  /\ r'.1 = Raise TypeError
  /\ analysis_overlays r'.2
     = [ Some (Note (fresh_id (later 0)) 0%nat (QPoint.make 5 7)
                    (PStr "spike") (PStr "#00FF00")) ].
Proof.
  repeat split; vm_compute; reflexivity.
Qed.


(** ** Preview and export rasters *)

Lemma scaled_size_1_100 : scaled_size 1 100 = Ok 1.
Proof. vm_compute. reflexivity. Qed.

#[local] Opaque scaled_size.

(** C1 (what the code does at a failing input). One red pixel at 100
    percent, no contrast filter, trace enhancement on: the preview raster
    is the dilated grey pixel, the exported raster is the original red
    pixel, for every implementation of the OpenCV operations.
    [export_current_view] has no trace-enhancement step. *)
Theorem export_omits_trace_enhancement (cv : cv2) :
  let g := luma cv (0, 0, 255) in
  zoom_raster cv red_pixel_traced red_pixel = Ok [[(g, g, g)]]
  /\ export_raster cv red_pixel_traced red_pixel = Ok [[(0, 0, 255)]]
  /\ image_label_pixmap (update_zoom cv red_pixel_traced).2
     = Some [[(g, g, g)]]
  /\ (export_current_view cv "exported_view.png" red_pixel_traced).1
     = Ok (Some [[(0, 0, 255)]])
  /\ zoom_raster cv red_pixel_traced red_pixel
     <> export_raster cv red_pixel_traced red_pixel.
Proof.
  intros g.
  assert (Hz : zoom_raster cv red_pixel_traced red_pixel = Ok [[(g, g, g)]]).
  { unfold zoom_raster. cbn. rewrite !Z.max_id. fold g.
    unfold shape1, shape0. cbn. change (Z.of_nat 1) with 1.
    rewrite scaled_size_1_100. reflexivity. }
  assert (He : export_raster cv red_pixel_traced red_pixel
               = Ok [[(0, 0, 255)]]).
  { unfold export_raster, shape1, shape0. cbn. change (Z.of_nat 1) with 1.
    rewrite scaled_size_1_100. reflexivity. }
  split; [exact Hz|]. split; [exact He|].
  split; [|split].
  - unfold update_zoom. unfold_monad. cbn. fold red_pixel. rewrite Hz.
    reflexivity.
  - unfold export_current_view. unfold_monad. cbn. fold red_pixel.
    rewrite He. reflexivity.
  - rewrite Hz, He. intros H. injection H as H1 H2 H3. lia.
Qed.

(** X2. With contrast mode 0 or the enhanced-mode box unchecked, and trace
    enhancement off, update_zoom and export_current_view compute the same
    raster or fail alike, for every image and every zoom. *)
Lemma rasters_agree_without_filter_and_trace (cv : cv2) (v : viewer) (img : image) :
  (contrast_mode v = 0 \/ enhanced_mode_checkbox v = false) ->
  trace_enhancement_active v = false ->
  zoom_raster cv v img = export_raster cv v img.
Proof.
  intros Hm Ht. unfold zoom_raster, export_raster, apply_filter, apply_trace_enhancement.
  rewrite Ht. 
  assert (E : enhanced_mode_checkbox v && negb (contrast_mode v =? 0) = false).
  { destruct Hm as [-> | ->]; [apply andb_false_r|reflexivity]. }
  rewrite E.
  destruct (scaled_size (shape1 img) _); cbn; [|reflexivity].
  destruct (scaled_size (shape0 img) _); cbn; [|reflexivity].
  now destruct (Cv.resize cv img a a0).
Qed.



#[local] Transparent scaled_size.

(** ** Display space and back *)

Lemma all_from_spec (f : Z -> bool) (n : nat) (start x : Z) :
  all_from f start n = true -> start <= x < start + Z.of_nat n -> f x = true.
Proof.
  revert start. induction n as [|n IH]; intros start H Hx; [lia|].
  cbn in H. apply andb_prop in H as [H0 H1].
  destruct (Z.eq_dec x start) as [->|Hne]; [exact H0|].
  apply (IH (start + 1)); [exact H1|lia].
Qed.



Lemma QPoint_sub_add (p q : QPoint.t) : QPoint.sub (QPoint.add p q) q = p.
Proof. destruct p, q. unfold QPoint.sub, QPoint.add. cbn. f_equal; lia. Qed.





(* ===================================================================== *)
(** ** Further properties: saving and loading the overlays *)
(* ===================================================================== *)

(** X3. For an overlay whose dictionary is allocated, calling to_dict a second
    time returns the same record and leaves the dictionaries as the first
    call left them. *)
Theorem to_dict_is_idempotent
    (o : overlay) (h : heap) (m : gmap string pyval) :
  h !! overlay_data o = Some m ->
  to_dict o (to_dict o h).2 = to_dict o h.
Proof.
  intros Hm.
  destruct o as [i l p t c|i l s e c|i l tl br c]; cbn in Hm |- *;
    unfold NoteOverlay.to_dict, RulerOverlay.to_dict,
      RegionOfInterestOverlay.to_dict, Dict.update, Dict.get_item;
    unfold_monad; rewrite Hm; cbn;
    rewrite (heap_update_lookup _ _ m) by assumption; cbn.
  - f_equal. unfold heap. rewrite list_insert_insert_eq. f_equal.
    rewrite (assoc_L (∪)). now rewrite (idemp_L (∪)).
  - assert (Hn : default PNone
                   (({["start_point" := point_tuple s;
                       "end_point" := point_tuple e; "color" := c;
                       "note" := default PNone (m !! "note")]} ∪ m)
                      !! "note")
                 = default PNone (m !! "note")).
    { erewrite lookup_union_Some_l; [reflexivity|]. by simplify_map_eq. }
    rewrite Hn. f_equal. unfold heap. rewrite list_insert_insert_eq. f_equal.
    rewrite (assoc_L (∪)). now rewrite (idemp_L (∪)).
  - f_equal. unfold heap. rewrite list_insert_insert_eq. f_equal.
    rewrite (assoc_L (∪)). now rewrite (idemp_L (∪)).
Qed.

Lemma to_dict_is_idempotent_witness :
  succeeded (to_dict ruler0 (to_dict ruler0 (dicts store3)).2).1
  = succeeded (to_dict ruler0 (dicts store3)).1.
Proof.
  rewrite (to_dict_is_idempotent ruler0 (dicts store3)
             {[ "note" := PStr "baseline" ]}); reflexivity.
Defined.

Lemma to_dict_total (o : overlay) (h : heap) :
  exists h', to_dict o h = (Ok (AnalysisOverlay.to_dict o), h')
             /\ length h' = length h.
Proof.
  destruct o as [i l p t c|i l s e c|i l tl br c]; cbn;
    unfold NoteOverlay.to_dict, RulerOverlay.to_dict,
      RegionOfInterestOverlay.to_dict, Dict.update, Dict.get_item;
    unfold_monad; cbn; eexists; (split; [reflexivity|]);
    apply length_insert.
Qed.

(** X4. When the overlay list holds a None entry, the saving loop of
    closeEvent and export_overlays raises AttributeError, so no record
    list is produced. *)
Theorem closing_fails_on_a_None_entry
    (l : list (option overlay)) (h : heap) :
  None ∈ l -> (overlays_to_dicts l h).1 = Raise AttributeError.
Proof.
  revert h. induction l as [|[o|] l IH]; intros h Hin.
  - now apply elem_of_nil in Hin.
  - apply elem_of_cons in Hin as [Hin|Hin]; [discriminate|].
    cbn. unfold_monad.
    destruct (to_dict_total o h) as (h' & -> & _).
    specialize (IH h' Hin).
    destruct (overlays_to_dicts l h') as [[ds|e] h'']; cbn in *;
      [discriminate|exact IH].
  - reflexivity.
Qed.

Lemma closing_fails_on_a_None_entry_witness :
  (overlays_to_dicts (analysis_overlays store_with_None)
     (dicts store_with_None)).1 = Raise AttributeError.
Proof.
  apply (closing_fails_on_a_None_entry
           (analysis_overlays store_with_None) (dicts store_with_None)).
  apply elem_of_cons. right. apply elem_of_cons. now left.
Defined.

(** X5. When the overlay list holds no None, the saving loop of closeEvent and
    export_overlays succeeds for every state of the dictionaries, returns
    one record per overlay in list order, each holding the id, the type
    and a reference to the overlay's own dictionary, and allocates no
    dictionary. *)
Theorem closing_writes_one_record_per_overlay
    (os : list overlay) (h : heap) :
  exists h',
    overlays_to_dicts (Some <$> os) h
    = (Ok (AnalysisOverlay.to_dict <$> os), h')
    /\ length h' = length h.
Proof.
  revert h. induction os as [|o os IH]; intros h.
  - exists h. split; reflexivity.
  - cbn. unfold_monad.
    destruct (to_dict_total o h) as (h1 & -> & L1).
    destruct (IH h1) as (h2 & E2 & L2).
    rewrite E2. exists h2. split; [reflexivity|congruence].
Qed.

Lemma from_dict_unknown (now : datetime) (d : gmap string pyval) (h : heap) :
  ~ known_kind d -> from_dict now d h = (Ok None, h).
Proof.
  intros Hk. unfold from_dict.
  destruct (d !! "type") as [[| |s| |]|] eqn:E; try reflexivity.
  repeat (match goal with
          | |- context [match ?x with _ => _ end] =>
              destruct x eqn:?; try reflexivity
          end).
  all: exfalso; apply Hk; unfold known_kind; rewrite E; subst; auto.
Qed.

Lemma load_overlays_appends (clock : nat -> datetime)
    (recs : list (gmap string pyval)) (i : nat) (v : viewer) :
  exists new,
    analysis_overlays (load_overlays clock i recs v).2
    = analysis_overlays v ++ new
    /\ (length new <= length recs)%nat
    /\ ((load_overlays clock i recs v).1 = Ok tt ->
        length new = length recs
        /\ forall (j : nat) d, recs !! j = Some d -> ~ known_kind d ->
                               new !! j = Some None).
Proof.
  revert i v. induction recs as [|d recs IH]; intros i v.
  - exists []. cbn. rewrite app_nil_r. repeat split; try lia.
    intros j d Hj. now rewrite lookup_nil in Hj.
  - cbn [load_overlays]. unfold_monad.
    destruct (from_dict (clock i) d (dicts v)) as [[o|e] h] eqn:Ef.
    + destruct (IH (S i) (set_overlays (analysis_overlays v ++ [o])
                                        (set_dicts h v)))
        as (new & En & Hlen & Hok).
      exists (o :: new). unfold modify. cbn. cbn in En. rewrite En.
      rewrite <- app_assoc. cbn.
      split; [reflexivity|]. split; [lia|].
      intros Hr. destruct (Hok Hr) as (Hl & Hunk). split; [lia|].
      intros [|j] d' Hj Hk; cbn in Hj |- *.
      * injection Hj as <-. rewrite (from_dict_unknown _ _ _ Hk) in Ef.
        now injection Ef as <- _.
      * now apply (Hunk j d').
    + exists []. cbn. rewrite app_nil_r. split; [reflexivity|].
      split; [lia|]. discriminate.
Qed.

(** X6. restore_session never loads more overlay entries than there are
    records; when the loop completes it has loaded exactly one entry per
    record, and the entry of every record whose type is not Note, Ruler or
    ROI is None at the index of that record. *)
Theorem restore_loads_one_entry_per_record
    (clock : nat -> datetime) (recs : list (gmap string pyval)) (v : viewer) :
  let r := restore_session_overlays clock recs v in
  (length (analysis_overlays r.2) <= length recs)%nat
  /\ (r.1 = Ok tt ->
      length (analysis_overlays r.2) = length recs
      /\ forall (j : nat) d, recs !! j = Some d -> ~ known_kind d ->
                             analysis_overlays r.2 !! j = Some None).
Proof.
  unfold restore_session_overlays. unfold_monad.
  destruct (load_overlays_appends clock recs 0 (set_overlays [] v))
    as (new & En & Hlen & Hok).
  cbn in En. cbn. rewrite En. split; [exact Hlen|exact Hok].
Qed.

Lemma restore_loads_one_entry_per_record_witness :
  analysis_overlays
    (restore_session_overlays later [rec_note; rec_unknown; rec_ruler]
       starting).2 !! 1%nat
  = Some None.
Proof.
  destruct (restore_loads_one_entry_per_record later
              [rec_note; rec_unknown; rec_ruler] starting) as (_ & H).
  destruct H as (_ & H); [vm_compute; reflexivity|].
  apply (H 1%nat rec_unknown); [reflexivity|].
  intros [K|[K|K]]; vm_compute in K; discriminate K.
Defined.

Lemma from_dict_to_dict_witness :
  exists d h',
    to_dict ruler0 (dicts store3) = (Ok d, h')
    /\ d !! "id" = Some (PStr (overlay_id ruler0))
    /\ from_dict (later 0) d h'
       = (Ok (Some (with_id (fresh_id (later 0)) ruler0)), h').
Proof.
  apply (from_dict_to_dict (later 0) ruler0 (dicts store3)
           {[ "note" := PStr "baseline" ]}); [reflexivity|].
  vm_compute. repeat split; discriminate.
Defined.

(* ===================================================================== *)
(** ** Further properties: rasters and coordinates *)
(* ===================================================================== *)

Lemma rasters_agree_without_filter_and_trace_witness :
  zoom_raster cv2_sample zoomed_out (black 100 100)
  = export_raster cv2_sample zoomed_out (black 100 100).
Proof.
  apply (rasters_agree_without_filter_and_trace cv2_sample zoomed_out
           (black 100 100)); [left|]; reflexivity.
Defined.

Lemma all_pixels_GRAY2BGR (P : pixel -> Prop) (Q : Z -> Prop) (a : gray_image) :
  (forall g, Q g -> P (g, g, g)) ->
  Forall (Forall Q) a -> all_pixels P (Cv.GRAY2BGR a).
Proof.
  intros HPQ Ha. unfold all_pixels, Cv.GRAY2BGR.
  apply Forall_fmap. eapply Forall_impl; [exact Ha|].
  intros row Hrow. apply Forall_fmap. eapply Forall_impl; [exact Hrow|].
  intros g Hg. now apply HPQ.
Qed.

Lemma Forall_Forall_True (a : gray_image) : Forall (Forall (fun _ => True)) a.
Proof. apply Forall_forall. intros row _. now apply Forall_forall. Qed.

(** X7. The image trace enhancement produces has three equal channels in every
    pixel, and so has the output of the contrast filter in modes 4 to 7,
    for every implementation of the OpenCV operations. *)
Theorem grey_stages_drop_colour (cv : cv2) (img : image) (mode : Z) :
  all_pixels is_grey (apply_trace_enhancement cv true img)
  /\ (4 <= mode <= 7 -> all_pixels is_grey (apply_filter cv true mode img)).
Proof.
  assert (Hg : forall a, all_pixels is_grey (Cv.GRAY2BGR a)).
  { intros a. apply (all_pixels_GRAY2BGR _ (fun _ => True));
      [now intros g _|apply Forall_Forall_True]. }
  split; [apply Hg|].
  intros Hm. unfold apply_filter.
  assert (E : negb (mode =? 0) = true)
    by (apply negb_true_iff, Z.eqb_neq; lia).
  rewrite E. cbn [andb].
  assert (mode = 4 \/ mode = 5 \/ mode = 6 \/ mode = 7) as [-> | [-> | [-> | ->]]]
    by lia; apply Hg.
Qed.

Lemma grey_stages_drop_colour_witness :
  all_pixels is_grey (apply_filter cv2_sample true 7 red_pixel).
Proof.
  apply (proj2 (grey_stages_drop_colour cv2_sample red_pixel 7)). lia.
Defined.

(** X8. In contrast mode 7 every pixel the filter produces is (0,0,0) or
    (255,255,255). *)
Theorem binary_mode_is_black_and_white (cv : cv2) (img : image) :
  all_pixels is_black_or_white (apply_filter cv true 7 img).
Proof.
  unfold apply_filter. cbn.
  apply (all_pixels_GRAY2BGR _ (fun g => g = 0 \/ g = 255)).
  - intros g [-> | ->]; [now left|now right].
  - unfold Cv.threshold_binary. apply Forall_fmap, Forall_forall.
    intros row _. apply Forall_fmap, Forall_forall. intros x _. cbn.
    destruct (120 <? x); auto.
Qed.

Lemma below_100_checked : all_from scales_to_zero 0 100 = true.
Proof. vm_compute. reflexivity. Qed.

Lemma scaled_size_zero (n z : Z) :
  0 <= n * z < 100 -> scaled_size n z = Ok 0.
Proof.
  intros H.
  pose proof (all_from_spec _ _ _ (n * z) below_100_checked ltac:(lia)) as Hk.
  unfold scales_to_zero in Hk. unfold scaled_size in *.
  rewrite Z.mul_1_r in Hk.
  destruct (PyFloat.to_int _) as [[| |]|]; try discriminate. reflexivity.
Qed.

Lemma resize_empty_target cv img w h :
  w = 0 \/ h = 0 -> Cv.resize cv img w h = Raise cv2_error.
Proof.
  intros [-> | ->]; unfold Cv.resize; cbn; [reflexivity|].
  now rewrite orb_true_r.
Qed.

(** X9. When width * zoom or height * zoom is below 100, the scaled size
    truncates to 0 and cv2.resize fails: export_current_view raises and
    changes nothing, and without filter and trace enhancement update_zoom
    raises too and keeps the old pixmap. *)
Theorem export_fails_when_a_side_scales_to_zero
    (cv : cv2) (v : viewer) (img : image) (save_path : string) :
  original_image v = Some img ->
  save_path <> "" ->
  (0 <= shape1 img * zoom_slider v < 100
   \/ 0 <= shape0 img * zoom_slider v < 100) ->
  succeeded (export_current_view cv save_path v).1 = false
  /\ (export_current_view cv save_path v).2 = v
  /\ (enhanced_mode_checkbox v = false ->
      trace_enhancement_active v = false ->
      succeeded (update_zoom cv v).1 = false /\ (update_zoom cv v).2 = v).
Proof.
  intros Hi Hp Hz.
  assert (Hr : succeeded
                 (result_bind (scaled_size (shape1 img) (zoom_slider v))
                    (fun width =>
                     result_bind (scaled_size (shape0 img) (zoom_slider v))
                       (fun height => Cv.resize cv img width height)))
               = false).
  { destruct Hz as [Hz|Hz].
    - rewrite (scaled_size_zero _ _ Hz). cbn [result_bind].
      destruct (scaled_size (shape0 img) _); cbn [result_bind];
        [rewrite resize_empty_target by auto|]; reflexivity.
    - rewrite (scaled_size_zero (shape0 img) _ Hz).
      destruct (scaled_size (shape1 img) _); cbn [result_bind];
        [rewrite resize_empty_target by auto|]; reflexivity. }
  split; [|split].
  - unfold export_current_view. unfold_monad. rewrite Hi.
    rewrite bool_decide_eq_false_2 by assumption.
    unfold export_raster.
    destruct (result_bind (scaled_size (shape1 img) _) _) as [r|e] eqn:E.
    + discriminate.
    + unfold result_bind in *.
      destruct (scaled_size (shape1 img) _); [|reflexivity].
      destruct (scaled_size (shape0 img) _); [|reflexivity].
      destruct (Cv.resize cv img a a0); [discriminate|reflexivity].
  - unfold export_current_view. unfold_monad. rewrite Hi.
    rewrite bool_decide_eq_false_2 by assumption.
    now destruct (export_raster cv v img).
  - intros He Ht. unfold update_zoom. unfold_monad. rewrite Hi.
    unfold zoom_raster, apply_filter, apply_trace_enhancement.
    rewrite He, Ht. cbn [andb].
    destruct (result_bind (scaled_size (shape1 img) _) _) as [r|e];
      [discriminate|]. split; reflexivity.
Qed.

Lemma export_fails_when_a_side_scales_to_zero_witness :
  succeeded (export_current_view cv2_sample "view.png" tiny).1 = false
  /\ succeeded (update_zoom cv2_sample tiny).1 = false.
Proof.
  pose proof (export_fails_when_a_side_scales_to_zero cv2_sample tiny
                (black 5 5) "view.png") as H.
  destruct H as (H1 & _ & H2);
    [reflexivity|discriminate
    |left; vm_compute; split; [discriminate|reflexivity]|].
  split; [exact H1|]. now apply H2.
Defined.

Lemma minus_one_checked : all_from minus_one_is_accepted 101 300 = true.
Proof. vm_compute. reflexivity. Qed.

(** X10. At a zoom above 100 percent (up to 400) a pointer one display pixel
    to the left of and above the label is not rejected: int(-1 /
    zoom_factor) truncates toward zero, so get_image_coordinates returns
    pixel (0,0) of the non-empty image. *)
Theorem pointer_one_pixel_before_the_image_is_accepted
    (v : viewer) (img : image) :
  original_image v = Some img ->
  is_Some (image_label_pixmap v) ->
  100 < zoom_slider v <= 400 ->
  0 < shape1 img -> 0 < shape0 img ->
  get_image_coordinates v (QPoint.add (QPoint.make (-1) (-1)) (label_origin v))
  = Ok (Some (QPoint.make 0 0)).
Proof.
  intros Hi [pm Hpm] Hz Hw Hh.
  pose proof (all_from_spec _ _ _ (zoom_slider v) minus_one_checked
                ltac:(lia)) as Hk.
  unfold minus_one_is_accepted in Hk.
  destruct (image_coord (-1) (zoom_factor_of (zoom_slider v)))
    as [[| |]|] eqn:E; try discriminate.
  unfold get_image_coordinates. rewrite Hpm, Hi, QPoint_sub_add.
  unfold image_xy. cbn [QPoint.x QPoint.y]. rewrite E. cbn [result_bind].
  replace ((0 <=? 0) && (0 <? shape1 img) && (0 <=? 0) && (0 <? shape0 img))
    with true; [reflexivity|].
  symmetry. rewrite !andb_true_iff, !Z.leb_le, !Z.ltb_lt. lia.
Qed.

Lemma pointer_one_pixel_before_the_image_is_accepted_witness :
  get_image_coordinates (showing (black 20 20) 200 "Note")
    (QPoint.make (-1) (-1))
  = Ok (Some (QPoint.make 0 0)).
Proof.
  apply (pointer_one_pixel_before_the_image_is_accepted
           (showing (black 20 20) 200 "Note") (black 20 20));
    [reflexivity|eexists; reflexivity|cbn; lia|reflexivity|reflexivity].
Defined.

(* ===================================================================== *)
(** ** Further properties: redrawing *)
(* ===================================================================== *)


(** X11. While the overlay list holds a None entry, update_zoom on a loaded
    image raises and leaves the viewer, and so the displayed pixmap,
    unchanged. *)
Theorem None_entry_blocks_redraw (cv : cv2) (v : viewer) (img : image) :
  original_image v = Some img ->
  None ∈ analysis_overlays v ->
  succeeded (update_zoom cv v).1 = false /\ (update_zoom cv v).2 = v.
Proof.
  intros Hi Hn. unfold update_zoom. unfold_monad. rewrite Hi.
  destruct (zoom_raster cv v img) as [r|e]; cbn; [|now split].
  assert (Hd : succeeded (draw_all (analysis_overlays v)
                            (zoom_factor_of (zoom_slider v))) = false).
  { induction (analysis_overlays v) as [|[o|] l IH]; cbn.
    - now apply elem_of_nil in Hn.
    - apply elem_of_cons in Hn as [Hn|Hn]; [discriminate|].
      destruct (draw o _); cbn; [now apply IH|reflexivity].
    - reflexivity. }
  destruct (draw_all _ _); [discriminate|]. cbn. now split.
Qed.

Lemma None_entry_blocks_redraw_witness :
  succeeded (update_zoom cv2_sample store_with_None).1 = false
  /\ (update_zoom cv2_sample store_with_None).2 = store_with_None.
Proof.
  apply (None_entry_blocks_redraw cv2_sample store_with_None (black 120 20));
    [reflexivity|].
  apply elem_of_cons. right. apply elem_of_cons. now left.
Defined.

(** X12. clear_all_overlays answered with Yes empties the overlay list and
    shows the raster of the image alone, for every viewer with an image,
    no draft and a computable raster, also when the list held None
    entries; answered with No it changes nothing. *)
Theorem clear_all_redraws_without_overlays
    (cv : cv2) (v : viewer) (img r : image) :
  original_image v = Some img ->
  drawing_overlay v = None ->
  zoom_raster cv v img = Ok r ->
  clear_all_overlays cv true v
  = (Ok tt, set_pixmap (Some r) (set_overlays [] v))
  /\ clear_all_overlays cv false v = (Ok tt, v).
Proof.
  intros Hi Hd Hr. split; [|reflexivity].
  unfold clear_all_overlays, update_zoom. unfold_monad. cbn.
  rewrite Hi, Hd.
  assert (E : zoom_raster cv (set_overlays [] v) img = zoom_raster cv v img)
    by reflexivity.
  rewrite E, Hr. reflexivity.
Qed.

Lemma clear_all_redraws_without_overlays_witness :
  clear_all_overlays cv2_sample true store_with_None
  = (Ok tt, set_pixmap (Some (black 120 20)) (set_overlays [] store_with_None)).
Proof.
  apply (clear_all_redraws_without_overlays cv2_sample store_with_None
           (black 120 20) (black 120 20)); reflexivity.
Defined.

(* ===================================================================== *)
(** ** Further properties: contrast mode at start-up, measurement grid *)
(* ===================================================================== *)

(** X13. restore_session bounds the stored contrast mode from above only: a
    stored value of 0 or more gives a mode in [0, 8) and a label; a
    negative value is kept as the mode, the filter stage then leaves every
    image unfiltered while, for values from -8 to -1, the label shows the
    name of mode value + 8, and below -8 the label lookup raises
    IndexError. *)
Theorem restore_bounds_contrast_mode_from_above_only
    (cv : cv2) (stored : Z) (v : viewer) :
  let r := restore_contrast stored v in
  (0 <= stored ->
     0 <= contrast_mode r.2 < 8 /\ succeeded r.1 = true)
  /\ (stored < 0 ->
        contrast_mode r.2 = stored
        /\ (forall enhanced img,
              apply_filter cv enhanced (contrast_mode r.2) img = img)
        /\ (-8 <= stored ->
              succeeded r.1 = true
              /\ r.1 = contrast_label_text (stored + 8))
        /\ (stored < -8 -> r.1 = Raise IndexError)).
Proof.
  unfold restore_contrast. unfold_monad. cbn.
  change (Z.of_nat 8) with 8.
  split.
  - intros H0. destruct (8 <=? stored) eqn:E; cbn.
    + split; [lia|reflexivity].
    + apply Z.leb_gt in E. split; [lia|].
      assert (stored = 0 \/ stored = 1 \/ stored = 2 \/ stored = 3
              \/ stored = 4 \/ stored = 5 \/ stored = 6 \/ stored = 7)
        as [-> | [-> | [-> | [-> | [-> | [-> | [-> | ->]]]]]]] by lia;
        reflexivity.
  - intros Hn.
    replace (8 <=? stored) with false by (symmetry; apply Z.leb_gt; lia).
    cbn. split; [reflexivity|]. split.
    { intros enhanced img. unfold apply_filter, contrast_filter.
      destruct stored; try lia. now destruct (enhanced && _). }
    split.
    + intros H8.
      assert (stored = -8 \/ stored = -7 \/ stored = -6 \/ stored = -5
              \/ stored = -4 \/ stored = -3 \/ stored = -2 \/ stored = -1)
        as [-> | [-> | [-> | [-> | [-> | [-> | [-> | ->]]]]]]] by lia;
        split; reflexivity.
    + intros H8. unfold contrast_label_text, list_item.
      cbn [length contrast_names]. change (Z.of_nat 8) with 8.
      replace (stored <? 0) with true by (symmetry; apply Z.ltb_lt; lia).
      replace (stored + 8 <? 0) with true by (symmetry; apply Z.ltb_lt; lia).
      reflexivity.
Qed.

Lemma restore_bounds_contrast_mode_from_above_only_witness :
  let r := restore_contrast (-1) store3 in
  contrast_mode r.2 = -1
  /\ r.1 = Ok "Contrast: Binary"%string
  /\ (forall enhanced img,
        apply_filter cv2_sample enhanced (contrast_mode r.2) img = img).
Proof.
  destruct (restore_bounds_contrast_mode_from_above_only cv2_sample (-1)
              store3) as (_ & H).
  destruct (H ltac:(lia)) as (H1 & H2 & H3 & _).
  destruct (H3 ltac:(lia)) as (_ & H4).
  split; [exact H1|]. split; [exact H4|exact H2].
Defined.

Lemma elem_of_py_range a b i : i ∈ py_range a b <-> a <= i < b.
Proof.
  unfold py_range. rewrite list_elem_of_fmap. split.
  - intros (k & -> & Hk). apply elem_of_seq in Hk. lia.
  - intros H. exists (Z.to_nat (i - a)). split; [lia|].
    apply elem_of_seq. lia.
Qed.

(** X14. For a positive number of pixels per unit the grid lines paintEvent
    draws along an axis are exactly the positive multiples of the unit
    that leave one full unit before the far edge, extent // unit - 1 of
    them when positive; a unit of 0 raises ZeroDivisionError and a
    negative unit draws no line. *)
Theorem grid_lines_are_the_inner_multiples (extent pixels_per_unit : Z) :
  (0 < pixels_per_unit ->
     exists lines,
       grid_lines extent pixels_per_unit = Ok lines
       /\ (forall y, y ∈ lines <->
             0 < y /\ y mod pixels_per_unit = 0
             /\ y + pixels_per_unit <= extent)
       /\ Z.of_nat (length lines) = Z.max 0 (extent / pixels_per_unit - 1))
  /\ (pixels_per_unit = 0 ->
        grid_lines extent pixels_per_unit = Raise ZeroDivisionError)
  /\ (pixels_per_unit < 0 -> 0 <= extent ->
        grid_lines extent pixels_per_unit = Ok []).
Proof.
  unfold grid_lines, floordiv. split; [|split].
  - intros Hp.
    replace (pixels_per_unit =? 0) with false
      by (symmetry; apply Z.eqb_neq; lia).
    cbn. eexists. split; [reflexivity|]. split.
    + intros y. rewrite list_elem_of_fmap. split.
      * intros (i & -> & Hi). apply elem_of_py_range in Hi.
        split; [nia|]. split; [apply Z_mod_mult|].
        pose proof (Z.mul_div_le extent pixels_per_unit Hp). nia.
      * intros (Hy & Hm & He).
        exists (y / pixels_per_unit).
        assert (Ey : y = y / pixels_per_unit * pixels_per_unit).
        { rewrite (Z_div_mod_eq_full y pixels_per_unit) at 1. lia. }
        split; [exact Ey|]. apply elem_of_py_range.
        split.
        { assert (0 < y / pixels_per_unit); [|lia].
          apply Z.div_str_pos. split; [lia|].
          destruct (Z_lt_le_dec y pixels_per_unit) as [Hlt|]; [|assumption].
          rewrite Z.mod_small in Hm by lia. lia. }
        assert (y / pixels_per_unit + 1 <= extent / pixels_per_unit); [|lia].
        apply Z.div_le_lower_bound; [lia|]. lia.
    + rewrite length_map. unfold py_range. rewrite length_map, length_seq.
      lia.
  - intros ->. reflexivity.
  - intros Hp He.
    replace (pixels_per_unit =? 0) with false
      by (symmetry; apply Z.eqb_neq; lia).
    cbn. unfold py_range.
    assert (extent / pixels_per_unit <= 0).
    { rewrite <- (Z.div_opp_opp extent pixels_per_unit) by lia.
      apply Z.div_le_upper_bound; lia. }
    replace (Z.to_nat (extent / pixels_per_unit - 1)) with 0%nat by lia.
    reflexivity.
Qed.

Lemma grid_lines_are_the_inner_multiples_witness :
  grid_lines 200 50 = Ok [50; 100; 150]
  /\ (forall y, y ∈ [50; 100; 150] <->
        0 < y /\ y mod 50 = 0 /\ y + 50 <= 200).
Proof.
  destruct (grid_lines_are_the_inner_multiples 200 50) as (H & _).
  destruct (H ltac:(lia)) as (lines & E & Hl & _).
  assert (E' : grid_lines 200 50 = Ok [50; 100; 150]) by reflexivity.
  rewrite E' in E. injection E as <-. split; [reflexivity|exact Hl].
Defined.

(* ===================================================================== *)
(** ** Further properties: annotations *)
(* ===================================================================== *)

Lemma load_annotation_record (now : datetime) (a : annotation) :
  position_in_range a ->
  load_annotation now (annotation_record a) = Ok (reloaded_annotation a).
Proof.
  intros Hr. unfold load_annotation, annotation_record, reloaded_annotation,
    position_in_range in *.
  destruct a as [ty [p|] data i]; cbn in *.
  - destruct (QPoint.truthy p) eqn:Et.
    + simplify_map_eq. cbn. simplify_map_eq. cbn.
      unfold QPoint.new. rewrite in_int_range_check by assumption.
      now destruct p.
    + now simplify_map_eq.
  - now simplify_map_eq.
Qed.

Lemma load_annotations_saved (clock : nat -> datetime) (i : nat)
    (l old : list annotation) :
  Forall position_in_range l ->
  load_annotations clock i (save_annotations l) old
  = (Ok tt, old ++ map reloaded_annotation l).
Proof.
  intros Hl. revert i old.
  induction Hl as [|a l Ha Hl IH]; intros i old; cbn.
  - unfold_monad. now rewrite app_nil_r.
  - unfold_monad. rewrite (load_annotation_record _ _ Ha).
    unfold modify. cbn. fold (save_annotations l). rewrite IH.
    now rewrite <- app_assoc.
Qed.

(** X15. Annotations written by closeEvent and read back by restore_session
    come back in the same order with their ids and types; only a position
    equal to QPoint(0,0) is lost (it is falsy, so no position is written)
    and falsy data becomes an empty dictionary. The list held before is
    discarded. *)
Theorem annotations_survive_a_session (clock : nat -> datetime)
    (l old : list annotation) :
  Forall position_in_range l ->
  let r := restore_annotations clock (save_annotations l) old in
  r = (Ok tt, map reloaded_annotation l)
  /\ map a_id r.2 = map a_id l.
Proof.
  intros Hl r.
  assert (E : r = (Ok tt, map reloaded_annotation l)).
  { subst r. unfold restore_annotations. unfold_monad. unfold modify. cbn.
    now rewrite load_annotations_saved. }
  split; [exact E|]. rewrite E. cbn [snd].
  rewrite map_map. reflexivity.
Qed.

Lemma annotations_survive_a_session_witness :
  map a_id (restore_annotations later (save_annotations annotations2) []).2
  = map a_id annotations2.
Proof.
  apply (annotations_survive_a_session later annotations2 []).
  apply Forall_cons_2; [|apply Forall_cons_2; [|apply Forall_nil_2]];
    vm_compute; repeat split; discriminate.
Defined.

(* ===================================================================== *)
(** ** Further properties: mouse handlers *)
(* ===================================================================== *)

#[local] Opaque update_zoom.

Lemma update_zoom_frame' cv v :
  exists p, (update_zoom cv v).2 = set_pixmap p v.
Proof. destruct (update_zoom_frame cv v) as (p & -> & _). now exists p. Qed.

Lemma update_zoom_image cv v :
  original_image (update_zoom cv v).2 = original_image v.
Proof. destruct (update_zoom_frame cv v) as (p & -> & _). reflexivity. Qed.

Lemma update_zoom_start cv v :
  drawing_start_point (update_zoom cv v).2 = drawing_start_point v.
Proof. destruct (update_zoom_frame cv v) as (p & -> & _). reflexivity. Qed.

Lemma get_image_coordinates_in_bounds (v : viewer) (pos p : QPoint.t) :
  get_image_coordinates v pos = Ok (Some p) ->
  exists img, original_image v = Some img /\ inside img p.
Proof.
  unfold get_image_coordinates.
  destruct (image_label_pixmap v); [|discriminate].
  destruct (original_image v) as [img|]; [|discriminate].
  destruct (image_xy _ _) as [[ix iy]|]; cbn [result_bind]; [|discriminate].
  destruct ((0 <=? ix) && (ix <? shape1 img)
            && (0 <=? iy) && (iy <? shape0 img)) eqn:E; [|discriminate].
  destruct (QPoint.new (PInt ix) (PInt iy)) as [q|] eqn:Eq;
    cbn [result_bind]; [|discriminate].
  intros Hp. injection Hp as Hp. subst q. exists img. split; [reflexivity|].
  unfold QPoint.new in Eq.
  destruct (_ && _ && _ && _) in Eq; [|discriminate].
  injection Eq as <-.
  rewrite !andb_true_iff, !Z.leb_le, !Z.ltb_lt in E. unfold inside. cbn. lia.
Qed.

Lemma get_image_coordinates_in_image v pos p img :
  get_image_coordinates v pos = Ok (Some p) ->
  original_image v = Some img -> inside img p.
Proof.
  intros G Hi.
  destruct (get_image_coordinates_in_bounds _ _ _ G) as (img' & E & H).
  congruence.
Qed.

(** X16. Whatever the pointer position, the zoom and the position of the
    label, get_image_coordinates returns a point only while a pixmap is
    shown, and that point is a pixel of the loaded image: 0 <= x < width
    and 0 <= y < height, with coordinates that fit a C int. *)
Theorem get_image_coordinates_inside (v : viewer) (pos p : QPoint.t) :
  get_image_coordinates v pos = Ok (Some p) ->
  is_Some (image_label_pixmap v)
  /\ in_int_range p
  /\ exists img, original_image v = Some img /\ inside img p.
Proof.
  intros G. split; [exact (get_image_coordinates_some_pixmap _ _ _ G)|].
  destruct (get_image_coordinates_in_bounds _ _ _ G) as (img & Hi & Hin).
  split; [|now exists img].
  unfold get_image_coordinates in G.
  destruct (image_label_pixmap v); [|discriminate].
  rewrite Hi in G.
  destruct (image_xy _ _) as [[ix iy]|]; cbn [result_bind] in G;
    [|discriminate].
  destruct ((0 <=? ix) && (ix <? shape1 img)
            && (0 <=? iy) && (iy <? shape0 img)); [|discriminate].
  unfold QPoint.new in G.
  destruct ((QPoint.int_min <=? ix) && (ix <=? QPoint.int_max)
            && (QPoint.int_min <=? iy) && (iy <=? QPoint.int_max)) eqn:E;
    cbn [result_bind] in G; [|discriminate].
  injection G as <-.
  rewrite !andb_true_iff, !Z.leb_le in E. unfold in_int_range. cbn. lia.
Qed.

Ltac inside_leaf :=
  cbn; rewrite ?update_zoom_overlays, ?update_zoom_drawing, ?update_zoom_image;
  cbn;
  split;
  [ first [ exists []; rewrite app_nil_r; split; [reflexivity|constructor]
          | eexists [_]; split;
            [reflexivity|repeat first [apply Forall_nil_2 | apply Forall_cons_2]; cbn; tauto] ]
  | split; [assumption| cbn; tauto] ].

Lemma press_inside cv img now pos text color v :
  commits_inside img v (handle_analysis_mouse_press cv now pos text color v).2.
Proof.
  unfold commits_inside, handle_analysis_mouse_press. unfold_monad.
  intros Hi Hd.
  destruct (get_image_coordinates v pos) as [[p|]|] eqn:G; cbn;
    try inside_leaf.
  pose proof (get_image_coordinates_in_image _ _ _ _ G Hi) as Hp.
  repeat case_bool_decide; repeat case_match; inside_leaf.
Qed.

Lemma move_inside cv img pos v :
  commits_inside img v (handle_analysis_mouse_move cv pos v).2.
Proof.
  unfold commits_inside, handle_analysis_mouse_move. unfold_monad.
  intros Hi Hd.
  destruct (get_image_coordinates v pos) as [[p|]|] eqn:G; cbn;
    try inside_leaf.
  pose proof (get_image_coordinates_in_image _ _ _ _ G Hi) as Hp.
  destruct (drawing_in_progress v); cbn;
    rewrite ?update_zoom_overlays, ?update_zoom_drawing, ?update_zoom_image;
    cbn; try inside_leaf.
  destruct (drawing_overlay v) as [[]|]; cbn in Hd |- *; inside_leaf.
Qed.

Lemma release_inside cv img pos note v :
  commits_inside img v (handle_analysis_mouse_release cv pos note v).2.
Proof.
  unfold commits_inside, handle_analysis_mouse_release. unfold_monad.
  intros Hi Hd.
  destruct (drawing_in_progress v); [|inside_leaf].
  destruct (get_image_coordinates v pos) as [[p|]|] eqn:G; cbn;
    try inside_leaf.
  pose proof (get_image_coordinates_in_image _ _ _ _ G Hi) as Hp.
  destruct (drawing_overlay v) as [[]|] eqn:Ed; cbn in Hd |- *;
    destruct (accepted note);
    cbn; rewrite ?update_zoom_overlays, ?update_zoom_drawing, ?update_zoom_image; cbn;
    inside_leaf.
Qed.

Lemma inside_refl img v : commits_inside img v v.
Proof.
  intros Hi Hd. split; [exists []; now rewrite app_nil_r|]. split; assumption.
Qed.

Lemma inside_trans img v1 v2 v3 :
  commits_inside img v1 v2 -> commits_inside img v2 v3 ->
  commits_inside img v1 v3.
Proof.
  intros H12 H23 Hi Hd. destruct (H12 Hi Hd) as ((n1 & E1 & F1) & Hi2 & Hd2).
  destruct (H23 Hi2 Hd2) as ((n2 & E2 & F2) & Hi3 & Hd3).
  split; [|split; assumption].
  exists (n1 ++ n2). rewrite E2, E1, app_assoc. split; [reflexivity|].
  now apply Forall_app.
Qed.

Lemma dispatch_inside cv img e v : commits_inside img v (dispatch cv e v).2.
Proof.
  destruct e as [b now pos text color|pos|b pos note|checked combo]; cbn.
  - unfold mousePressEvent. unfold_monad.
    destruct b; try apply inside_refl.
    + destruct (analysis_mode_active v); [apply press_inside|apply inside_refl].
    + destruct (_ && _); [|apply inside_refl]. intros Hi Hd. inside_leaf.
  - unfold mouseMoveEvent. unfold_monad.
    destruct (analysis_mode_active v); [apply move_inside|apply inside_refl].
  - unfold mouseReleaseEvent. unfold_monad.
    destruct b; try apply inside_refl.
    destruct (analysis_mode_active v); [apply release_inside|apply inside_refl].
  - unfold toggle_analysis_mode. unfold_monad.
    destruct checked; intros Hi Hd; inside_leaf.
Qed.

Lemma run_inside cv img evs v : commits_inside img v (run cv evs v).2.
Proof.
  revert v. induction evs as [|e evs IH]; intros v; [apply inside_refl|].
  cbn. unfold bind. pose proof (dispatch_inside cv img e v) as He.
  destruct (dispatch cv e v) as [[[]|err] v1]; cbn in *; [|exact He].
  eapply inside_trans; [exact He|apply IH].
Qed.

(** X17. In a viewer with an image loaded and no draft, any sequence of mouse
    presses, moves, releases and mode toggles leaves the old overlay list
    followed by new overlays, and every point of every new overlay is a
    pixel of the image. *)
Theorem committed_geometry_is_inside
    (cv : cv2) (evs : list event) (v : viewer) (img : image) :
  original_image v = Some img ->
  drawing_overlay v = None ->
  exists new,
    analysis_overlays (run cv evs v).2 = analysis_overlays v ++ new
    /\ Forall (entry_inside img) new.
Proof.
  intros Hi Hd. apply (run_inside cv img evs v); [exact Hi|].
  now rewrite Hd.
Qed.

Lemma committed_geometry_is_inside_witness :
  exists new,
    analysis_overlays
      (run cv2_sample session_note_roi (showing (black 200 200) 100 "Note")).2
    = analysis_overlays (showing (black 200 200) 100 "Note") ++ new
    /\ Forall (entry_inside (black 200 200)) new.
Proof.
  apply (committed_geometry_is_inside cv2_sample session_note_roi
           (showing (black 200 200) 100 "Note") (black 200 200));
    reflexivity.
Defined.

(** X18. delete_overlay with an index inside the list removes exactly that
    entry: the list is one shorter, the entries before the index keep
    their place, those after it move up by one, and the draft and the
    dictionaries are unchanged, whether or not the redraw succeeds. *)
Theorem delete_in_range_removes_one
    (cv : cv2) (v : viewer) (index : Z) :
  0 <= index < Z.of_nat (length (analysis_overlays v)) ->
  let v' := (delete_overlay cv index v).2 in
  analysis_overlays v' = delete (Z.to_nat index) (analysis_overlays v)
  /\ Z.of_nat (length (analysis_overlays v'))
     = Z.of_nat (length (analysis_overlays v)) - 1
  /\ (forall i : nat, (i < Z.to_nat index)%nat ->
        analysis_overlays v' !! i = analysis_overlays v !! i)
  /\ (forall i : nat, (Z.to_nat index <= i)%nat ->
        analysis_overlays v' !! i = analysis_overlays v !! S i)
  /\ drawing_overlay v' = drawing_overlay v
  /\ dicts v' = dicts v.
Proof.
  intros Hin v'.
  assert (E : v' = (update_zoom cv
            (set_overlays (delete (Z.to_nat index) (analysis_overlays v)) v)).2).
  { subst v'. unfold delete_overlay. unfold_monad.
    replace ((0 <=? index) && _) with true; [reflexivity|].
    symmetry. rewrite andb_true_iff, Z.leb_le, Z.ltb_lt. lia. }
  assert (Eo : analysis_overlays v'
               = delete (Z.to_nat index) (analysis_overlays v)).
  { now rewrite E, update_zoom_overlays. }
  split; [exact Eo|]. split.
  { rewrite Eo, length_delete; [lia|].
    apply lookup_lt_is_Some. lia. }
  split. { intros i Hi. rewrite Eo. now apply list_lookup_delete_lt. }
  split. { intros i Hi. rewrite Eo. now apply list_lookup_delete_ge. }
  split. { now rewrite E, update_zoom_drawing. }
  now rewrite E, update_zoom_dicts.
Qed.

Lemma move_keeps_dragging cv v ruler i p c v' pos :
  is_Some (image_label_pixmap v) ->
  QPoint.truthy p = true ->
  dragging v ruler i p c v' ->
  dragging v ruler i p c (handle_analysis_mouse_move cv pos v').2.
Proof.
  intros Hpix Ht (Hi & Hz & Ho & Hp & Hov & Hd & Hs & q & Hq).
  unfold handle_analysis_mouse_move. unfold_monad.
  destruct (get_image_coordinates v' pos) as [[p'|]|]; cbn;
    try (repeat split; try assumption; now exists q).
  assert (Hdp : drawing_in_progress v' = true)
    by (unfold drawing_in_progress; now rewrite Hq, Hs).
  rewrite Hdp.
  destruct (update_zoom_frame cv
              (set_drawing_overlay
                 (with_free_endpoint p' <$> drawing_overlay v') v'))
    as (pm & -> & Hpm).
  cbn. repeat split; try assumption.
  - apply Hpm. exact Hp.
  - exists p'. rewrite Hq. now destruct ruler.
Qed.

Lemma after_moves_dragging cv v ruler i p c ps v' :
  is_Some (image_label_pixmap v) ->
  QPoint.truthy p = true ->
  dragging v ruler i p c v' ->
  dragging v ruler i p c (after_moves cv ps v').
Proof.
  intros Hpix Ht. revert v'. induction ps as [|pos ps IH]; intros v' H;
    [exact H|].
  cbn. apply IH. now apply move_keeps_dragging.
Qed.

(** X19. A drag with the Ruler or ROI tool that starts on an image point other
    than (0,0) commits, after any number of pointer moves, exactly one
    overlay running from the press point to the release point: the list is
    unchanged until the release, the draft and the start point are then
    cleared, the new dictionary holds the note when the note dialog was
    accepted with a non-empty text and is empty otherwise, and no earlier
    dictionary is touched. *)
Theorem drag_commits_press_and_release_points
    (cv : cv2) (v : viewer) (ruler : bool) (now : datetime)
    (e1 e3 : QPoint.t) (ps : list QPoint.t) (p1 p3 : QPoint.t)
    (text note : text_reply) (color : QColor.t) :
  current_analysis_tool v = (if ruler then "Ruler" else "ROI") ->
  (ruler = true -> QColor.isValid color = true) ->
  get_image_coordinates v e1 = Ok (Some p1) ->
  QPoint.truthy p1 = true ->
  get_image_coordinates v e3 = Ok (Some p3) ->
  let c := PStr (if ruler then QColor.name color else "#0000FF") in
  let l := length (dicts v) in
  let v1 := (handle_analysis_mouse_press cv now e1 text color v).2 in
  let v2 := after_moves cv ps v1 in
  let v3 := (handle_analysis_mouse_release cv e3 note v2).2 in
  analysis_overlays v2 = analysis_overlays v
  /\ analysis_overlays v3
     = analysis_overlays v ++ [Some (draft_of ruler (fresh_id now) l p1 p3 c)]
  /\ drawing_overlay v3 = None
  /\ drawing_start_point v3 = None
  /\ dicts v3 !! l
     = Some (if accepted note then {[ "note" := PStr note.1 ]} else ∅)
  /\ (forall l' : nat, (l' < l)%nat -> dicts v3 !! l' = dicts v !! l').
Proof.
  intros Htool Hvalid G1 Ht G3 c l v1 v2 v3.
  pose proof (get_image_coordinates_some_pixmap _ _ _ G1) as Hpix.
  assert (D1 : dragging v ruler (fresh_id now) p1 c v1).
  { subst v1. unfold handle_analysis_mouse_press. unfold_monad.
    rewrite G1, Htool.
    destruct ruler; cbn.
    - rewrite (Hvalid eq_refl). cbn.
      repeat split; try assumption. now exists p1.
    - repeat split; try assumption. now exists p1. }
  pose proof (after_moves_dragging cv v ruler _ p1 c ps v1 Hpix Ht D1) as D2.
  fold v2 in D2.
  destruct D2 as (Hi & Hz & Ho & Hp & Hov & Hd & Hs & q & Hq).
  assert (G3' : get_image_coordinates v2 e3 = Ok (Some p3)).
  { rewrite <- G3. now apply get_image_coordinates_view. }
  set (o := draft_of ruler (fresh_id now) l p1 p3 c).
  set (h3 := if accepted note
             then <[l := <["note" := PStr note.1]> (default ∅ (dicts v2 !! l))]>
                    (dicts v2)
             else dicts v2).
  assert (E3 : v3 = (update_zoom cv
                (set_drawing_start_point None (set_drawing_overlay None
                  (set_overlays (analysis_overlays v ++ [Some o])
                    (set_dicts h3 (set_drawing_overlay (Some o) v2)))))).2).
  { subst v3 h3 o. unfold handle_analysis_mouse_release. unfold_monad.
    assert (Hdp : drawing_in_progress v2 = true)
      by (unfold drawing_in_progress; now rewrite Hq, Hs).
    rewrite Hdp, G3', Hq. cbn.
    destruct ruler; cbn; destruct (accepted note); cbn; rewrite ?Hov;
      reflexivity. }
  split; [exact Hov|].
  split; [now rewrite E3, update_zoom_overlays|].
  split; [now rewrite E3, update_zoom_drawing|].
  split; [now rewrite E3, update_zoom_start|].
  rewrite E3, update_zoom_dicts. cbn. subst h3.
  assert (Hl : dicts v2 !! l = Some ∅).
  { rewrite Hd. subst l. unfold heap. rewrite lookup_app_r by lia.
    now rewrite Nat.sub_diag. }
  assert (Hlen : length (dicts v2) = S l).
  { rewrite Hd, length_app. cbn. subst l. lia. }
  split.
  - destruct (accepted note); [|exact Hl].
    rewrite Hl. cbn. unfold heap. rewrite list_lookup_insert_eq by lia.
    reflexivity.
  - intros l' Hl'. unfold heap. destruct (accepted note).
    + rewrite list_lookup_insert_ne by lia. rewrite Hd. now rewrite lookup_app_l.
    + rewrite Hd. now rewrite lookup_app_l.
Qed.

(** X20. In analysis mode a right click while a draft exists clears the draft
    and its start point and leaves the overlay list and the dictionaries
    as they were; a release after it does nothing and a move after it
    leaves the list unchanged. *)
Theorem right_click_discards_draft
    (cv : cv2) (v : viewer) (now : datetime) (pos e : QPoint.t)
    (text note : text_reply) (color : QColor.t) :
  analysis_mode_active v = true ->
  is_Some (drawing_overlay v) ->
  let v1 := (mousePressEvent cv RightButton now pos text color v).2 in
  analysis_overlays v1 = analysis_overlays v
  /\ dicts v1 = dicts v
  /\ drawing_overlay v1 = None
  /\ drawing_start_point v1 = None
  /\ handle_analysis_mouse_release cv e note v1 = (Ok tt, v1)
  /\ analysis_overlays (handle_analysis_mouse_move cv e v1).2
     = analysis_overlays v.
Proof.
  intros Hmode Hdraft v1.
  assert (E : v1 = (update_zoom cv (set_drawing_start_point None
                                      (set_drawing_overlay None v))).2).
  { subst v1. unfold mousePressEvent. unfold_monad. rewrite Hmode.
    rewrite bool_decide_eq_true_2 by assumption. reflexivity. }
  assert (Hd : drawing_overlay v1 = None)
    by now rewrite E, update_zoom_drawing.
  assert (Ho : analysis_overlays v1 = analysis_overlays v)
    by now rewrite E, update_zoom_overlays.
  split; [exact Ho|].
  split; [now rewrite E, update_zoom_dicts|].
  split; [exact Hd|].
  split; [now rewrite E, update_zoom_start|].
  assert (Hdp : drawing_in_progress v1 = false)
    by (unfold drawing_in_progress; now rewrite Hd).
  split.
  - unfold handle_analysis_mouse_release. unfold_monad. now rewrite Hdp.
  - unfold handle_analysis_mouse_move. unfold_monad. rewrite Hdp.
    destruct (get_image_coordinates v1 e) as [[p|]|]; exact Ho.
Qed.

(** X21. A Ruler or ROI draft started on image point (0,0) can neither be
    stretched nor committed: QPoint(0,0) is falsy, so the test of
    self.drawing_start_point fails in the move and release handlers, every
    move leaves the viewer unchanged and every release returns normally
    without appending anything. *)
Theorem draft_started_at_origin_is_stuck
    (cv : cv2) (v : viewer) (ruler : bool) (now : datetime) (e1 : QPoint.t)
    (text : text_reply) (color : QColor.t) :
  current_analysis_tool v = (if ruler then "Ruler" else "ROI") ->
  (ruler = true -> QColor.isValid color = true) ->
  get_image_coordinates v e1 = Ok (Some (QPoint.make 0 0)) ->
  let v1 := (handle_analysis_mouse_press cv now e1 text color v).2 in
  let c := PStr (if ruler then QColor.name color else "#0000FF") in
  drawing_overlay v1
  = Some (draft_of ruler (fresh_id now) (length (dicts v))
                   (QPoint.make 0 0) (QPoint.make 0 0) c)
  /\ (forall e, (handle_analysis_mouse_move cv e v1).2 = v1)
  /\ (forall e note, handle_analysis_mouse_release cv e note v1 = (Ok tt, v1)).
Proof.
  intros Htool Hvalid G v1 c.
  assert (E : v1 = set_drawing_overlay
                 (Some (draft_of ruler (fresh_id now) (length (dicts v))
                                 (QPoint.make 0 0) (QPoint.make 0 0) c))
                 (set_dicts (dicts v ++ [∅])
                    (set_drawing_start_point (Some (QPoint.make 0 0)) v))).
  { subst v1 c. unfold handle_analysis_mouse_press. unfold_monad.
    rewrite G, Htool. destruct ruler; cbn; [|reflexivity].
    now rewrite (Hvalid eq_refl). }
  assert (Hdp : drawing_in_progress v1 = false) by now rewrite E.
  split; [now rewrite E|]. split.
  - intros e. unfold handle_analysis_mouse_move. unfold_monad. rewrite Hdp.
    now destruct (get_image_coordinates v1 e) as [[p|]|].
  - intros e note. unfold handle_analysis_mouse_release. unfold_monad.
    now rewrite Hdp.
Qed.

(** X22. With the Note tool armed, a press on image point p appends exactly
    one NoteOverlay at p with the entered text, the colour #00FF00 and a
    new empty dictionary when the dialog is accepted with a non-empty
    text; when the dialog is cancelled or the text is empty the press
    returns normally and the viewer is unchanged. *)
Theorem note_press_commits_or_ignores
    (cv : cv2) (v : viewer) (now : datetime) (e p : QPoint.t)
    (text : text_reply) (color : QColor.t) :
  current_analysis_tool v = "Note" ->
  get_image_coordinates v e = Ok (Some p) ->
  let r := handle_analysis_mouse_press cv now e text color v in
  (accepted text = true ->
     analysis_overlays r.2
     = analysis_overlays v
       ++ [Some (Note (fresh_id now) (length (dicts v)) p (PStr text.1)
                      (PStr "#00FF00"))]
     /\ dicts r.2 = dicts v ++ [∅]
     /\ drawing_overlay r.2 = drawing_overlay v)
  /\ (accepted text = false -> r = (Ok tt, v)).
Proof.
  intros Htool G r. subst r. unfold handle_analysis_mouse_press.
  unfold_monad. rewrite G, Htool.
  rewrite (bool_decide_eq_true_2 ("Note" = "Note")%string) by reflexivity.
  cbn. split; intros Ha; rewrite Ha; cbn.
  - rewrite update_zoom_overlays, update_zoom_dicts, update_zoom_drawing.
    repeat split.
  - reflexivity.
Qed.

(* ===================================================================== *)
(** ** Further properties: editing an overlay *)
(* ===================================================================== *)



Lemma heap_insert_default (h : heap) (l : loc) :
  <[l := default ∅ (h !! l)]> h = h.
Proof.
  unfold heap in *. destruct (h !! l) as [m|] eqn:E; cbn.
  - now apply list_insert_id.
  - apply list_insert_ge. now apply lookup_ge_None.
Qed.




(** X24. An accepted edit of the overlay at a valid index, whose current text
    or note is a string or absent, behaves as update_zoom on the edited
    store: a Note gets the reply as its text; a Ruler gets the reply
    stored under note even when it is empty; an ROI gets it stored under
    note, or has the key removed when the reply is empty. *)
Theorem accepted_edit_rewrites_text_or_note (cv : cv2) (v : viewer)
    (index : Z) (reply : text_reply) (o : overlay) (s : string) :
  0 <= index ->
  analysis_overlays v !! Z.to_nat index = Some (Some o) ->
  dialog_text (edit_prompt (dicts v) o) = Ok s ->
  reply.2 = true ->
  edit_overlay cv index reply v
  = update_zoom cv (edit_applied v index reply.1 o)
  /\ exists p, (edit_overlay cv index reply v).2
               = set_pixmap p (edit_applied v index reply.1 o).
Proof.
  intros H0 El Ed Er.
  assert (E : edit_overlay cv index reply v
              = update_zoom cv (edit_applied v index reply.1 o)).
  { unfold edit_overlay. unfold_monad.
    replace ((0 <=? index) && _) with true.
    2:{ symmetry. rewrite andb_true_iff, Z.leb_le, Z.ltb_lt.
        apply lookup_lt_Some in El. lia. }
    rewrite El.
    destruct o as [i d p text c|i d s0 e c|i d tl br c]; cbn in Ed |- *.
    - rewrite Ed, Er. cbn. unfold edit_applied. cbn.
      rewrite heap_insert_default. now destruct v.
    - unfold get_note. cbn. rewrite Ed, Er. cbn.
      unfold edit_applied, Dict.set_item. cbn.
      now rewrite (list_insert_id _ _ _ El).
    - unfold get_note. cbn. rewrite Ed, Er. cbn.
      unfold edit_applied, Dict.set_item, pop_item. cbn.
      rewrite (list_insert_id _ _ _ El).
      destruct (bool_decide (reply.1 = "")); reflexivity. }
  split; [exact E|]. rewrite E. apply update_zoom_frame'.
Qed.

(* ===================================================================== *)
(** ** Further properties: keyboard and wheel input *)
(* ===================================================================== *)

Lemma setValue_step cv value v :
  let v' := (zoom_slider_setValue cv value v).2 in
  zoom_slider v' = slider_bound value
  /\ contrast_mode v' = contrast_mode v
  /\ same_document v v'.
Proof.
  unfold zoom_slider_setValue. unfold_monad.
  destruct (slider_bound value =? zoom_slider v) eqn:E; cbn.
  - apply Z.eqb_eq in E. unfold same_document. now rewrite E.
  - destruct (update_zoom_frame' cv (set_zoom_slider (slider_bound value) v))
      as (p & Hp).
    destruct (update_zoom cv _) as [r s]. cbn in *. subst s.
    unfold same_document. cbn. tauto.
Qed.

Lemma slider_bound_range value : 10 <= slider_bound value <= 400.
Proof. unfold slider_bound. lia. Qed.

Lemma view_dispatch_step cv i v :
  let v' := (view_dispatch cv i v).2 in
  (10 <= zoom_slider v <= 400 -> 10 <= zoom_slider v' <= 400)
  /\ contrast_mode v'
     = (match i with
        | KeyPress _ Key_C => (contrast_mode v + 1) mod 8
        | _ => contrast_mode v
        end)
  /\ same_document v v'.
Proof.
  assert (Hs : forall value,
    let v' := (zoom_slider_setValue cv value v).2 in
    (10 <= zoom_slider v <= 400 -> 10 <= zoom_slider v' <= 400)
    /\ contrast_mode v' = contrast_mode v /\ same_document v v').
  { intros value. destruct (setValue_step cv value v) as (Hz & Hc & Hd).
    cbv zeta. rewrite Hz.
    split; [intros _; apply slider_bound_range|now split]. }
  assert (Hid : (10 <= zoom_slider v <= 400 -> 10 <= zoom_slider v <= 400)
                /\ contrast_mode v = contrast_mode v /\ same_document v v).
  { unfold same_document. tauto. }
  destruct i as [live k|ctrl delta]; cbn.
  - destruct k; try apply Hs.
    unfold keyPressEvent. unfold_monad. cbn.
    assert (Hl : exists s, contrast_label_text ((contrast_mode v + 1) mod 8)
                           = Ok s).
    { pose proof (Z.mod_pos_bound (contrast_mode v + 1) 8 ltac:(lia)) as Hm.
      assert ((contrast_mode v + 1) mod 8 = 0 \/ (contrast_mode v + 1) mod 8 = 1
              \/ (contrast_mode v + 1) mod 8 = 2 \/ (contrast_mode v + 1) mod 8 = 3
              \/ (contrast_mode v + 1) mod 8 = 4 \/ (contrast_mode v + 1) mod 8 = 5
              \/ (contrast_mode v + 1) mod 8 = 6 \/ (contrast_mode v + 1) mod 8 = 7)
        as [-> | [-> | [-> | [-> | [-> | [-> | [-> | ->]]]]]]] by lia;
        eexists; reflexivity. }
    destruct Hl as [s ->]. cbn.
    destruct live; cbn; [unfold same_document; tauto|].
    destruct (update_zoom_frame' cv
                (set_contrast_mode ((contrast_mode v + 1) mod 8) v))
      as (p & Hp).
    destruct (update_zoom cv _) as [r s']. cbn in *. subst s'.
    unfold same_document. cbn. tauto.
  - unfold wheelEvent. unfold_monad.
    destruct ctrl; [|exact Hid].
    destruct (0 <? delta); [apply Hs|].
    destruct (delta <? 0); [apply Hs|exact Hid].
Qed.

(** X25. Starting from a zoom in [10, 400], any sequence of the keys C, +, =,
    -, Z, X, R and of wheel events keeps the zoom in [10, 400]; the
    contrast mode is the old one when C was not pressed and (old + number
    of presses) mod 8 otherwise; image, overlays, draft, dictionaries and
    analysis mode are unchanged. *)
Theorem inputs_keep_view_settings_in_range
    (cv : cv2) (l : list view_input) (v : viewer) :
  10 <= zoom_slider v <= 400 ->
  let v' := after_inputs cv l v in
  10 <= zoom_slider v' <= 400
  /\ contrast_mode v'
     = (if contrast_presses l =? 0 then contrast_mode v
        else (contrast_mode v + contrast_presses l) mod 8)
  /\ same_document v v'.
Proof.
  revert v. induction l as [|i l IH]; intros v Hz.
  - cbn. unfold same_document. tauto.
  - cbn [after_inputs fold_left].
    destruct (view_dispatch_step cv i v) as (Hz1 & Hc1 & Hd1).
    specialize (IH _ (Hz1 Hz)). cbn in IH. destruct IH as (Hz2 & Hc2 & Hd2).
    fold (after_inputs cv l (view_dispatch cv i v).2) in *.
    split; [exact Hz2|]. split.
    + rewrite Hc2, Hc1. unfold contrast_presses.
      destruct i as [live [| | | | | |]|ctrl delta]; cbn;
        try reflexivity.
      set (n := length (List.filter _ l)).
      rewrite Nat2Z.inj_succ.
      destruct (Z.of_nat n =? 0) eqn:E.
      * apply Z.eqb_eq in E. rewrite E.
        replace (Z.succ 0 =? 0) with false by reflexivity.
        reflexivity.
      * replace (Z.succ (Z.of_nat n) =? 0) with false
          by (symmetry; apply Z.eqb_neq; lia).
        rewrite Zplus_mod_idemp_l. f_equal. lia.
    + unfold same_document in *. destruct_and!.
      repeat split; etransitivity; eassumption.
Qed.

#[local] Transparent update_zoom.

(* ===================================================================== *)
(** ** The handler properties on the sample data *)
(* ===================================================================== *)

Lemma get_image_coordinates_inside_witness :
  exists img, original_image store3 = Some img
              /\ inside img (QPoint.make 10 10).
Proof.
  apply (get_image_coordinates_inside store3 (QPoint.make 10 10)
           (QPoint.make 10 10)).
  vm_compute. reflexivity.
Defined.

Lemma delete_in_range_removes_one_witness :
  analysis_overlays (delete_overlay cv2_sample 1 store3).2
  = [Some note0; Some roi0].
Proof.
  apply (delete_in_range_removes_one cv2_sample store3 1).
  vm_compute. split; [discriminate|reflexivity].
Defined.

Lemma drag_commits_press_and_release_points_witness :
  let v := store3_roi in
  let v1 :=
    (handle_analysis_mouse_press cv2_sample t1 (QPoint.make 20 3) no_reply
       red v).2 in
  let v2 := after_moves cv2_sample [QPoint.make 30 5; QPoint.make 500 5] v1 in
  let v3 :=
    (handle_analysis_mouse_release cv2_sample (QPoint.make 60 18)
       ("focus", true) v2).2 in
  analysis_overlays v2 = analysis_overlays v
  /\ analysis_overlays v3
     = analysis_overlays v
       ++ [Some (ROI (fresh_id t1) 3%nat (QPoint.make 20 3)
                     (QPoint.make 60 18) (PStr "#0000FF"))].
Proof.
  pose proof (drag_commits_press_and_release_points cv2_sample store3_roi
                false t1 (QPoint.make 20 3) (QPoint.make 60 18)
                [QPoint.make 30 5; QPoint.make 500 5]
                (QPoint.make 20 3) (QPoint.make 60 18)
                no_reply ("focus", true) red) as H.
  cbv zeta in H.
  destruct H as (H2 & H3 & _);
    [reflexivity|discriminate|vm_compute; reflexivity|reflexivity
    |vm_compute; reflexivity|].
  split; [exact H2|exact H3].
Defined.

Lemma right_click_discards_draft_witness :
  let v1 :=
    (mousePressEvent cv2_sample RightButton t1 (QPoint.make 30 5) no_reply red
       mid_drag).2 in
  analysis_overlays v1 = analysis_overlays mid_drag
  /\ dicts v1 = dicts mid_drag
  /\ drawing_overlay v1 = None.
Proof.
  pose proof (right_click_discards_draft cv2_sample mid_drag t1
                (QPoint.make 30 5) (QPoint.make 60 18) no_reply
                ("focus", true) red) as H.
  cbv zeta in H.
  destruct H as (H1 & H2 & H3 & _);
    [reflexivity|eexists; vm_compute; reflexivity|].
  split; [exact H1|]. split; [exact H2|exact H3].
Defined.

Lemma draft_started_at_origin_is_stuck_witness :
  let v1 :=
    (handle_analysis_mouse_press cv2_sample t0 (QPoint.make 0 0) no_reply red
       store3_ruler).2 in
  (forall e, (handle_analysis_mouse_move cv2_sample e v1).2 = v1)
  /\ (forall e note,
        handle_analysis_mouse_release cv2_sample e note v1 = (Ok tt, v1)).
Proof.
  pose proof (draft_started_at_origin_is_stuck cv2_sample store3_ruler true
                t0 (QPoint.make 0 0) no_reply red) as H.
  cbv zeta in H.
  destruct H as (_ & H);
    [reflexivity|reflexivity|vm_compute; reflexivity|].
  exact H.
Defined.

Lemma note_press_commits_or_ignores_witness :
  let r :=
    handle_analysis_mouse_press cv2_sample t0 (QPoint.make 5 7)
      ("spike", true) red store3 in
  analysis_overlays r.2
  = analysis_overlays store3
    ++ [Some (Note (fresh_id t0) 3%nat (QPoint.make 5 7) (PStr "spike")
                   (PStr "#00FF00"))].
Proof.
  pose proof (note_press_commits_or_ignores cv2_sample store3 t0
                (QPoint.make 5 7) (QPoint.make 5 7) ("spike", true) red) as H.
  cbv zeta in H.
  destruct H as (H & _); [reflexivity|vm_compute; reflexivity|].
  destruct (H eq_refl) as (H1 & _). exact H1.
Defined.

Lemma accepted_edit_rewrites_text_or_note_witness :
  exists p, (edit_overlay cv2_sample 2 ("", true) store3).2
            = set_pixmap p (edit_applied store3 2 "" roi0).
Proof.
  apply (accepted_edit_rewrites_text_or_note cv2_sample store3 2 ("", true)
           roi0 ""); [lia|reflexivity|reflexivity|reflexivity].
Defined.

Lemma inputs_keep_view_settings_in_range_witness :
  let v' := after_inputs cv2_sample
              [KeyPress false Key_C; KeyPress false Key_Minus;
               Wheel true (-120); KeyPress true Key_C] zoomed_out in
  10 <= zoom_slider v' <= 400 /\ contrast_mode v' = 2.
Proof.
  pose proof (inputs_keep_view_settings_in_range cv2_sample
                [KeyPress false Key_C; KeyPress false Key_Minus;
                 Wheel true (-120); KeyPress true Key_C] zoomed_out) as H.
  cbv zeta in H. destruct H as (H1 & H2 & _); [cbn; lia|].
  split; [exact H1|exact H2].
Defined.
